(** * The suggestion matcher of AIGamingAssistant

    A shallow embedding of [backend/ai_pipeline.py] and of the rule table
    of [backend/suggestion_models.py], with the properties of the matcher
    and ranker proved over it.

    The Python code is duck typed: rules, states and the catalog are
    ordinary Python objects, and both methods wrap their body in
    [try ... except Exception].  The embedding therefore has
    - one type [value] of Python objects,
    - an exception monad [result] for the operations that may raise,
    - the two method bodies written in that monad, and the methods
      themselves as the bodies under [try_except].

    Diagnostic logging is left out: the logged f-strings only call
    [.get] on objects already known to be dicts, so they raise nothing. *)

From Stdlib Require Import List String Ascii ZArith Bool Lia.
From Stdlib Require Import Sorting.Sorted Sorting.Permutation.
Import ListNotations.
Open Scope string_scope.
Open Scope list_scope.

Set Warnings "-register-all".

(** ** Python objects *)

(** The objects a state, a rule or the catalog is built from.  A dict is
    kept as its list of items in insertion order, which is the order
    [.items()] iterates in; keys are strings, as in [Dict[str, Any]].
    Floating point numbers are outside the model. *)
Inductive value : Type :=
| VNone
| VBool (b : bool)
| VInt (z : Z)
| VStr (s : string)
| VList (l : list value)
| VDict (d : list (string * value)).

Definition dict := list (string * value).

(** Lookup of a key among the items of a dict. *)
Fixpoint dict_lookup (d : dict) (k : string) : option value :=
  match d with
  | [] => None
  | (k', v) :: d' => if String.eqb k k' then Some v else dict_lookup d' k
  end.

(** [d[k] = v]: the value of an existing key is replaced in place, a new
    key is appended. *)
Fixpoint dict_set (d : dict) (k : string) (v : value) : dict :=
  match d with
  | [] => [(k, v)]
  | (k', v') :: d' =>
      if String.eqb k k' then (k', v) :: d' else (k', v') :: dict_set d' k v
  end.

Definition keys (d : dict) : list string := map fst d.

(** Python's [==].  [bool] is a subclass of [int], so [True == 1] and
    [False == 0]; a string equals only a string; lists are compared
    element by element; dicts by size and by the value under each key. *)
Fixpoint py_eq (a b : value) {struct a} : bool :=
  match a, b with
  | VNone, VNone => true
  | VBool x, VBool y => Bool.eqb x y
  | VBool x, VInt y => Z.eqb (Z.b2z x) y
  | VInt x, VBool y => Z.eqb x (Z.b2z y)
  | VInt x, VInt y => Z.eqb x y
  | VStr s, VStr t => String.eqb s t
  | VList l, VList m =>
      (fix list_eq (l m : list value) {struct l} : bool :=
         match l, m with
         | [], [] => true
         | x :: l', y :: m' => py_eq x y && list_eq l' m'
         | _, _ => false
         end) l m
  | VDict d, VDict e =>
      Nat.eqb (List.length d) (List.length e) &&
      (fix items_in (d : list (string * value)) : bool :=
         match d with
         | [] => true
         | (k, v) :: d' =>
             match dict_lookup e k with
             | Some w => py_eq v w
             | None => false
             end && items_in d'
         end) d
  | _, _ => false
  end.

(** Python's [!=]. *)
Definition py_ne (a b : value) : bool := negb (py_eq a b).

(** [isinstance(v, dict)]. *)
Definition isinstance_dict (v : value) : bool :=
  match v with VDict _ => true | _ => false end.

(** ** Exceptions *)

Inductive exn : Type := AttributeError | KeyError | TypeError.

Inductive result (A : Type) : Type :=
| Ok (a : A)
| Raise (e : exn).
Arguments Ok {A} a.
Arguments Raise {A} e.

Definition bind {A B : Type} (m : result A) (f : A -> result B) : result B :=
  match m with
  | Ok a => f a
  | Raise e => Raise e
  end.

Notation "x <- m ;; f" := (bind m (fun x => f))
  (at level 61, m at next level, right associativity).

(** [try: m except Exception: h]. *)
Definition try_except {A : Type} (m : result A) (h : exn -> result A) : result A :=
  match m with
  | Ok a => Ok a
  | Raise e => h e
  end.

(** ** Operations on objects *)

(** [o.get(k, default)]: only a dict has the method. *)
Definition py_get (o : value) (k : string) (default : value) : result value :=
  match o with
  | VDict d =>
      match dict_lookup d k with
      | Some v => Ok v
      | None => Ok default
      end
  | _ => Raise AttributeError
  end.

(** [o.items()]. *)
Definition py_items (o : value) : result dict :=
  match o with
  | VDict d => Ok d
  | _ => Raise AttributeError
  end.

(** [k in s] for two strings: [k] occurs in [s]. *)
Definition substring (k s : string) : bool :=
  match String.index 0 k s with
  | Some _ => true
  | None => false
  end.

(** [k in o] for a string [k]: a key of a dict, an element of a list, a
    substring of a string; the other objects are not containers. *)
Definition py_contains (o : value) (k : string) : result bool :=
  match o with
  | VDict d =>
      match dict_lookup d k with
      | Some _ => Ok true
      | None => Ok false
      end
  | VList l => Ok (existsb (fun x => py_eq x (VStr k)) l)
  | VStr s => Ok (substring k s)
  | _ => Raise TypeError
  end.

(** [o[k]] for a string [k]: lists and strings take integer indices only,
    the other objects are not subscriptable. *)
Definition py_getitem (o : value) (k : string) : result value :=
  match o with
  | VDict d =>
      match dict_lookup d k with
      | Some v => Ok v
      | None => Raise KeyError
      end
  | _ => Raise TypeError
  end.

(** The one-character strings of a string, as iteration yields them. *)
Fixpoint chars (s : string) : list value :=
  match s with
  | EmptyString => []
  | String c s' => VStr (String c EmptyString) :: chars s'
  end.

(** [for x in o]: the elements of a list, the keys of a dict, the
    characters of a string. *)
Definition py_iter (o : value) : result (list value) :=
  match o with
  | VList l => Ok l
  | VDict d => Ok (map VStr (keys d))
  | VStr s => Ok (chars s)
  | _ => Raise TypeError
  end.

(** Byte-wise lexicographic order of strings. *)
Definition string_ltb (s t : string) : bool :=
  match String.compare s t with
  | Lt => true
  | _ => false
  end.

(** Python's [<].  Numbers (booleans included) are ordered numerically,
    strings lexicographically, lists by their first differing elements and
    then by length; every other pair of operands raises [TypeError]. *)
Fixpoint py_lt (a b : value) {struct a} : result bool :=
  match a, b with
  | VBool x, VBool y => Ok (Z.ltb (Z.b2z x) (Z.b2z y))
  | VBool x, VInt y => Ok (Z.ltb (Z.b2z x) y)
  | VInt x, VBool y => Ok (Z.ltb x (Z.b2z y))
  | VInt x, VInt y => Ok (Z.ltb x y)
  | VStr s, VStr t => Ok (string_ltb s t)
  | VList l, VList m =>
      (fix list_lt (l m : list value) {struct l} : result bool :=
         match l, m with
         | [], [] => Ok false
         | [], _ :: _ => Ok true
         | _ :: _, [] => Ok false
         | x :: l', y :: m' =>
             if py_eq x y then list_lt l' m' else py_lt x y
         end) l m
  | _, _ => Raise TypeError
  end.

(** A [for] loop whose body may [return]: the body yields [Some r] to
    return [r] from the enclosing function and [None] to go on. *)
Fixpoint for_loop {A R : Type} (body : A -> result (option R)) (l : list A)
  : result (option R) :=
  match l with
  | [] => Ok None
  | x :: l' =>
      r <- body x ;;
      match r with
      | Some v => Ok (Some v)
      | None => for_loop body l'
      end
  end.

(** ** [AISuggestionPipeline] *)

Record AISuggestionPipeline : Type := { suggestions : value }.

(** The body of the inner loop of [_check_conditions], lines 42-45. *)
Definition check_subkey (state : value) (key : string) (item : string * value)
  : result (option bool) :=
  let '(subkey, subval) := item in
  sk <- py_getitem state key ;;
  present <- py_contains sk subkey ;;
  if negb present then Ok (Some false)
  else
    sk' <- py_getitem state key ;;
    x <- py_getitem sk' subkey ;;
    if py_ne x subval then Ok (Some false) else Ok None.

(** The body of the outer loop of [_check_conditions], lines 37-49. *)
Definition check_key (state : value) (item : string * value)
  : result (option bool) :=
  let '(key, value) := item in
  present <- py_contains state key ;;
  if negb present then Ok (Some false)
  else if isinstance_dict value then
    sk <- py_getitem state key ;;
    if isinstance_dict sk then
      subitems <- py_items value ;;
      for_loop (check_subkey state key) subitems
    else
      sk' <- py_getitem state key ;;
      if py_ne sk' value then Ok (Some false) else Ok None
  else
    sk <- py_getitem state key ;;
    if py_ne sk value then Ok (Some false) else Ok None.

(** The [try] block of [_check_conditions], lines 35-51. *)
Definition check_conditions_body (suggestion state : value) : result bool :=
  conditions <- py_get suggestion "conditions" (VDict []) ;;
  items <- py_items conditions ;;
  r <- for_loop (check_key state) items ;;
  match r with
  | Some b => Ok b
  | None => Ok true
  end.

Definition _check_conditions (suggestion state : value) : result bool :=
  try_except (check_conditions_body suggestion state) (fun _ => Ok false).

(** The filtering loop of [get_suggestions], lines 18-20; [active] is the
    list built so far. *)
Fixpoint filter_active (state : value) (game_suggestions active : list value)
  : result (list value) :=
  match game_suggestions with
  | [] => Ok active
  | suggestion :: rest =>
      b <- _check_conditions suggestion state ;;
      filter_active state rest (if b then active ++ [suggestion] else active)
  end.

(** The sort keys [x['priority']], computed for every element before any
    comparison is made. *)
Fixpoint sort_keys (l : list value) : result (list (value * value)) :=
  match l with
  | [] => Ok []
  | x :: l' =>
      k <- py_getitem x "priority" ;;
      kl <- sort_keys l' ;;
      Ok ((k, x) :: kl)
  end.

(** [list.sort] is a stable sort that compares keys with [<] only.  It is
    embedded as an insertion sort: an element goes in front of the first
    element whose key is not smaller than its own, so that it stays ahead
    of the later elements of equal key.  Which pairs an implementation
    compares, and in which order, is its own matter; when no comparison
    raises, every stable sort returns the same list. *)
Fixpoint insert_by_key (x : value * value) (l : list (value * value))
  : result (list (value * value)) :=
  match l with
  | [] => Ok [x]
  | y :: l' =>
      b <- py_lt (fst y) (fst x) ;;
      if b then (r <- insert_by_key x l' ;; Ok (y :: r))
      else Ok (x :: y :: l')
  end.

Fixpoint sort_by_key (l : list (value * value)) : result (list (value * value)) :=
  match l with
  | [] => Ok []
  | x :: l' =>
      s <- sort_by_key l' ;;
      insert_by_key x s
  end.

(** [l.sort(key=lambda x: x['priority'])]. *)
Definition py_sort_priority (l : list value) : result (list value) :=
  kl <- sort_keys l ;;
  s <- sort_by_key kl ;;
  Ok (map snd s).

(** The [try] block of [get_suggestions], lines 13-26. *)
Definition get_suggestions_body (self : AISuggestionPipeline) (state : value)
    (game : string) : result (list value) :=
  game_suggestions <- py_get (suggestions self) game (VList []) ;;
  rules <- py_iter game_suggestions ;;
  active_suggestions <- filter_active state rules [] ;;
  sorted <- py_sort_priority active_suggestions ;;
  Ok (firstn 3 sorted).

(** [get_suggestions(self, state, game='valorant')]: [None] stands for a
    call that leaves the [game] argument out. *)
Definition get_suggestions (self : AISuggestionPipeline) (state : value)
    (game : option string) : result (list value) :=
  let game := match game with Some g => g | None => "valorant" end in
  try_except (get_suggestions_body self state game) (fun _ => Ok []).

(** ** The rule table of [suggestion_models.py] *)

(** The catch-all rule that closes the 'valorant' list, lines 142-147. *)
Definition default_tip : value :=
  VDict [("id", VStr "default_tip");
         ("text", VStr "Play smart and communicate with your team!");
         ("priority", VInt 99);
         ("conditions", VDict [])].

(** The rules of [SUGGESTIONS['valorant']], in the order of the table. *)
Definition valorant_rules : list value :=
  [
   VDict [("id", VStr "combat_utility");
          ("text", VStr "Use utility to gain advantage in combat");
          ("priority", VInt 1);
          ("conditions", VDict [("combat", VBool true); ("utility_available", VBool true); ("close_range", VBool true)])];
   VDict [("id", VStr "exposed_warning");
          ("text", VStr "You are exposed! Find cover quickly");
          ("priority", VInt 2);
          ("conditions", VDict [("exposed", VBool true)])];
   VDict [("id", VStr "save_money");
          ("text", VStr "Consider saving money for next round");
          ("priority", VInt 3);
          ("conditions", VDict [("team_money", VStr "low"); ("round_time", VStr "late")])];
   VDict [("id", VStr "use_ultimate");
          ("text", VStr "Use your ultimate ability to gain an advantage");
          ("priority", VInt 1);
          ("conditions", VDict [("ultimate_available", VBool true); ("combat", VBool true)])];
   VDict [("id", VStr "rotate_site");
          ("text", VStr "Rotate to another site to surprise the enemy");
          ("priority", VInt 2);
          ("conditions", VDict [("site_control", VBool false); ("enemy_presence", VBool true)])];
   VDict [("id", VStr "plant_spike");
          ("text", VStr "Plant the spike to secure the round");
          ("priority", VInt 1);
          ("conditions", VDict [("site_control", VBool true); ("spike_available", VBool true); ("safe_to_plant", VBool true)])];
   VDict [("id", VStr "defend_spike");
          ("text", VStr "Defend the spike to win the round");
          ("priority", VInt 1);
          ("conditions", VDict [("spike_planted", VBool true); ("enemy_presence", VBool true)])];
   VDict [("id", VStr "request_smoke");
          ("text", VStr "Request a smoke from a teammate to block vision");
          ("priority", VInt 2);
          ("conditions", VDict [("need_smoke", VBool true); ("teammate_with_smoke", VBool true)])];
   VDict [("id", VStr "request_flash");
          ("text", VStr "Request a flash from a teammate to blind the enemy");
          ("priority", VInt 2);
          ("conditions", VDict [("need_flash", VBool true); ("teammate_with_flash", VBool true)])];
   VDict [("id", VStr "request_healing");
          ("text", VStr "Request healing from a teammate to stay alive");
          ("priority", VInt 1);
          ("conditions", VDict [("low_health", VBool true); ("teammate_with_healing", VBool true)])];
   VDict [("id", VStr "check_corners");
          ("text", VStr "Check your corners before entering a new area");
          ("priority", VInt 3);
          ("conditions", VDict [("entering_new_area", VBool true)])];
   VDict [("id", VStr "communicate_team");
          ("text", VStr "Communicate with your team to coordinate attacks and defenses");
          ("priority", VInt 2);
          ("conditions", VDict [("need_coordination", VBool true)])];
   VDict [("id", VStr "use_ability_q");
          ("text", VStr "Use your Q ability for tactical advantage");
          ("priority", VInt 1);
          ("conditions", VDict [("abilities", VDict [("Q", VBool true)]); ("combat", VBool true)])];
   VDict [("id", VStr "use_ability_e");
          ("text", VStr "Use your E ability to reposition or gather info");
          ("priority", VInt 2);
          ("conditions", VDict [("abilities", VDict [("E", VBool true)]); ("combat", VBool true)])];
   VDict [("id", VStr "switch_to_rifle");
          ("text", VStr "Switch to a rifle for better firepower");
          ("priority", VInt 2);
          ("conditions", VDict [("equipped_gun", VStr "Classic"); ("combat", VBool true)])];
   default_tip
  ].

(** The rules of [SUGGESTIONS['csgo']], in the order of the table. *)
Definition csgo_rules : list value :=
  [
   VDict [("id", VStr "combat_utility");
          ("text", VStr "Use utility to gain advantage in combat");
          ("priority", VInt 1);
          ("conditions", VDict [("combat", VBool true); ("utility_available", VBool true)])];
   VDict [("id", VStr "save_money");
          ("text", VStr "Consider saving money for next round");
          ("priority", VInt 2);
          ("conditions", VDict [("team_money", VStr "low"); ("round_time", VStr "late")])]
  ].

(** The rules of [SUGGESTIONS['dota2']], in the order of the table. *)
Definition dota2_rules : list value :=
  [
   VDict [("id", VStr "team_fight");
          ("text", VStr "Team fight opportunity! Group up with allies");
          ("priority", VInt 1);
          ("conditions", VDict [("team_alive", VInt 4); ("combat", VBool true)])];
   VDict [("id", VStr "farm_gold");
          ("text", VStr "Focus on farming to increase gold");
          ("priority", VInt 2);
          ("conditions", VDict [("gold", VStr "low"); ("combat", VBool false)])]
  ].

Definition SUGGESTIONS : value :=
  VDict [("valorant", VList valorant_rules);
         ("csgo", VList csgo_rules);
         ("dota2", VList dota2_rules)].

(** [AISuggestionPipeline()]: the constructor stores the table. *)
Definition __init__ : AISuggestionPipeline := {| suggestions := SUGGESTIONS |}.

(** ** What the matcher computes *)

(** The outcome of [_check_conditions] as a boolean; the method never
    raises (see [check_conditions_total]). *)
Definition rule_matches (suggestion state : value) : bool :=
  match _check_conditions suggestion state with
  | Ok b => b
  | Raise _ => false
  end.

(** The keys a rule's conditions name; none when the rule is malformed. *)
Definition condition_keys (suggestion : value) : list string :=
  match py_get suggestion "conditions" (VDict []) with
  | Ok (VDict c) => keys c
  | _ => []
  end.

(** The integer under a rule's ['priority']. *)
Definition priority_of (r : value) : option Z :=
  match py_getitem r "priority" with
  | Ok (VInt z) => Some z
  | _ => None
  end.

Definition priority (r : value) : Z :=
  match priority_of r with
  | Some z => z
  | None => 0%Z
  end.

(** A rule of the data model: a dict with an integer priority. *)
Definition well_formed_rule (r : value) : bool :=
  match priority_of r with
  | Some _ => true
  | None => false
  end.

(** Reference sort: stable insertion sort on the integer priority. *)
Fixpoint insert_priority (x : value) (l : list value) : list value :=
  match l with
  | [] => [x]
  | y :: l' =>
      if Z.ltb (priority y) (priority x) then y :: insert_priority x l'
      else x :: y :: l'
  end.

Fixpoint sort_priority (l : list value) : list value :=
  match l with
  | [] => []
  | x :: l' => insert_priority x (sort_priority l')
  end.

(** The scalars of the data model: booleans, numbers and strings. *)
Definition is_scalar (v : value) : bool :=
  match v with
  | VBool _ | VInt _ | VStr _ => true
  | _ => false
  end.

(** A rule whose conditions, as [_check_conditions] reads them, are the
    empty dict. *)
Definition has_empty_conditions (suggestion : value) : bool :=
  match py_get suggestion "conditions" (VDict []) with
  | Ok (VDict []) => true
  | _ => false
  end.

(** A rule whose conditions are exactly [conds]. *)
Definition rule_with (conds : dict) : value := VDict [("conditions", VDict conds)].

(** Closed form of one sub-key test: [subkey in sd and sd[subkey] == subval]. *)
Definition sub_ok (sd : dict) (item : string * value) : bool :=
  match dict_lookup sd (fst item) with
  | Some x => py_eq x (snd item)
  | None => false
  end.

(** Closed form of one condition: the key is present and its value passes
    the nested or the plain comparison.  A state that is not a dict
    satisfies no condition. *)
Definition cond_ok (state : value) (item : string * value) : bool :=
  match state with
  | VDict s =>
      match dict_lookup s (fst item) with
      | None => false
      | Some sv =>
          match snd item, sv with
          | VDict e, VDict sd => forallb (sub_ok sd) e
          | expected, _ => py_eq sv expected
          end
      end
  | _ => false
  end.

(** Closed form of [_check_conditions]. *)
Definition matches (suggestion state : value) : bool :=
  match suggestion with
  | VDict r =>
      match dict_lookup r "conditions" with
      | None => true
      | Some (VDict c) => forallb (cond_ok state) c
      | Some _ => false
      end
  | _ => false
  end.

(** A rule paired with its sort key. *)
Definition keyed (r : value) : value * value := (VInt (priority r), r).

(** Ascending priority. *)
Definition priority_le (a b : value) : Prop := (priority a <= priority b)%Z.

(** The rules of a domain as [get_suggestions] reads them, line 14. *)
Definition rules_for (self : AISuggestionPipeline) (game : string) : result value :=
  py_get (suggestions self) game (VList []).

(** ** Readings of the specification that the code does not follow *)

(** Equality "by value and type" read literally: a plain condition passes
    only on the very same object. *)
Definition type_sensitive_matching : Prop :=
  forall (s : dict) (k : string) (expected sv : value),
    is_scalar expected = true ->
    dict_lookup s k = Some sv ->
    check_key (VDict s) (k, expected) = Ok None ->
    sv = expected.

(** The same reading for nested conditions: every listed sub-key is bound
    to the very same object in the state. *)
Definition nested_exact_matching : Prop :=
  forall (s : dict) (k : string) (e sd : dict),
    dict_lookup s k = Some (VDict sd) ->
    (check_key (VDict s) (k, VDict e) = Ok None <->
     forall sk sub, In (sk, sub) e -> dict_lookup sd sk = Some sub).

(** ** Sample rules, states and pipelines *)

Definition combat_rule : value := rule_with [("combat", VBool true)].

Definition ability_q_rule : value :=
  rule_with [("abilities", VDict [("Q", VBool true)])].

(** A rule without a ['priority']. *)
Definition unranked_rule : value :=
  VDict [("id", VStr "unranked"); ("conditions", VDict [])].

(** A catalog whose 'demo' list holds a number, a rule whose conditions
    are not a dict, and one proper rule. *)
Definition faulty_pipeline : AISuggestionPipeline :=
  {| suggestions :=
       VDict [("demo", VList [VInt 7;
                              VDict [("priority", VInt 1); ("conditions", VStr "combat")];
                              default_tip]);
              ("unranked", VList [unranked_rule])] |}.

(** ** [GameStateDetector], [backend/game_state.py] *)

(** The table [GAME_CONFIGS] of [backend/utils/config.py]: a window name,
    the optional list of window titles and the screen regions
    [(x, y, width, height)] of each game. *)
Record game_config : Type := {
  window_name : string;
  window_aliases : option (list string);
  screen_regions : list (string * (Z * Z * Z * Z))
}.

Definition GAME_CONFIGS : list (string * game_config) :=
  [("valorant",
    {| window_name := "VALORANT";
       window_aliases :=
         Some ["VALORANT"; "VALORANT  "; "Valorant"; "Valorant ";
               "VALORANT - Riot Games"; "Valorant - Riot Games"];
       screen_regions :=
         [("combat", (800, 800, 320, 200)); ("utility", (30, 900, 400, 150));
          ("round_time", (810, 20, 300, 60)); ("team_money", (30, 60, 300, 100));
          ("abilities", (800, 950, 320, 80));
          ("equipped_gun", (900, 1000, 120, 60))]%Z |});
   ("csgo",
    {| window_name := "Counter-Strike: Global Offensive";
       window_aliases := None;
       screen_regions :=
         [("combat", (800, 800, 320, 200)); ("utility", (30, 900, 400, 150));
          ("round_time", (810, 20, 300, 60));
          ("team_money", (1580, 60, 300, 100))]%Z |});
   ("dota2",
    {| window_name := "Dota 2";
       window_aliases := None;
       screen_regions :=
         [("combat", (800, 800, 320, 200)); ("utility", (760, 900, 400, 150));
          ("team_alive", (810, 20, 300, 60));
          ("gold", (1580, 60, 300, 100))]%Z |})].

(** [GAME_CONFIGS.get(name)]. *)
Fixpoint config_lookup (table : list (string * game_config)) (name : string)
  : option game_config :=
  match table with
  | [] => None
  | (k, c) :: table' => if String.eqb name k then Some c else config_lookup table' name
  end.

(** [str.lower()] on strings of ASCII characters: the letters [A]-[Z] go
    to [a]-[z].  Other alphabets are outside the model. *)
Definition lower_ascii (c : ascii) : ascii :=
  let n := nat_of_ascii c in
  if (Nat.leb 65 n && Nat.leb n 90)%bool then ascii_of_nat (n + 32) else c.

Fixpoint lower (s : string) : string :=
  match s with
  | EmptyString => EmptyString
  | String c s' => String (lower_ascii c) (lower s')
  end.

Fixpoint is_ascii (s : string) : bool :=
  match s with
  | EmptyString => true
  | String c s' => (Nat.ltb (nat_of_ascii c) 128 && is_ascii s')%bool
  end.

Module GameStateDetector.

Section Detector.

(** A captured image.  What OpenCV makes of it in [_detect_combat], lines
    178-216, is [combat_in_frame]: the thresholds on red pixels and edges,
    or [False] when the [try] block raises. *)
Variable frame : Type.
Variable combat_in_frame : frame -> bool.

(** The list [[0.0, 0.0]] returned by [_detect_player_position] and
    [_detect_spike_location]; floating point numbers are outside the
    model, so the object is left open. *)
Variable origin : value.

Record detector : Type := {
  game_name : string;
  config : game_config;
  last_frame : option frame;
  last_state : value
}.

(** The outcome of the constructor: an object, or [ValueError] with the
    name as the caller spelled it. *)
Inductive constructed : Type :=
| Constructed (self : detector)
| ValueError (game_name : string).

(** Lines 15-23.  A config of the table is a non-empty dict, so
    [not self.config] holds exactly when the lookup gave [None]. *)
Definition __init__ (game_name : string) : constructed :=
  let name := lower game_name in
  match config_lookup GAME_CONFIGS name with
  | None => ValueError game_name
  | Some c =>
      Constructed {| game_name := name; config := c;
                     last_frame := None; last_state := VDict [] |}
  end.

(** Lines 173-218. *)
Definition _detect_combat (self : detector) : bool :=
  match last_frame self with
  | None => false
  | Some f => combat_in_frame f
  end.

Definition _detect_team_alive (self : detector) : value := VInt 5.
Definition _detect_utility_available (self : detector) : value := VBool false.
Definition _detect_round_time (self : detector) : value := VStr "mid".
Definition _detect_team_money (self : detector) : value := VStr "medium".
Definition _detect_exposed (self : detector) : value := VBool false.
Definition _detect_gold (self : detector) : value := VStr "sufficient".
Definition _detect_player_health (self : detector) : value := VInt 100.
Definition _detect_player_armor (self : detector) : value := VInt 0.
Definition _detect_player_position (self : detector) : value := origin.
Definition _detect_enemy_positions (self : detector) : value := VList [].
Definition _detect_spike_location (self : detector) : value := origin.
Definition _detect_site_control (self : detector) : value := VBool false.
Definition _detect_enemy_presence (self : detector) : value := VBool false.
Definition _detect_teammate_with_smoke (self : detector) : value := VBool false.
Definition _detect_teammate_with_flash (self : detector) : value := VBool false.
Definition _detect_teammate_with_healing (self : detector) : value := VBool false.
Definition _detect_need_coordination (self : detector) : value := VBool false.
Definition _detect_equipped_gun (self : detector) : value := VStr "Classic".

(** Lines 288-297. *)
Definition _detect_abilities (self : detector) : value :=
  let combat := _detect_combat self in
  VDict [("Q", VBool (if combat then true else false));
         ("E", VBool (if combat then true else false));
         ("C", VBool false);
         ("X", VBool false)].

(** Lines 128-150.  Every [hasattr(self, '_detect_...')] names a method of
    the class and is true, so each key gets what its detector returns. *)
Definition _get_valorant_state (self : detector) : value :=
  VDict [("combat", VBool (_detect_combat self));
         ("utility_available", _detect_utility_available self);
         ("round_time", _detect_round_time self);
         ("team_money", _detect_team_money self);
         ("exposed", _detect_exposed self);
         ("player_health", _detect_player_health self);
         ("player_armor", _detect_player_armor self);
         ("player_position", _detect_player_position self);
         ("enemy_positions", _detect_enemy_positions self);
         ("spike_location", _detect_spike_location self);
         ("site_control", _detect_site_control self);
         ("enemy_presence", _detect_enemy_presence self);
         ("teammate_with_smoke", _detect_teammate_with_smoke self);
         ("teammate_with_flash", _detect_teammate_with_flash self);
         ("teammate_with_healing", _detect_teammate_with_healing self);
         ("need_coordination", _detect_need_coordination self);
         ("abilities", _detect_abilities self);
         ("equipped_gun", _detect_equipped_gun self)].

(** Lines 152-160. *)
Definition _get_csgo_state (self : detector) : value :=
  VDict [("combat", VBool (_detect_combat self));
         ("utility_available", _detect_utility_available self);
         ("round_time", _detect_round_time self);
         ("team_money", _detect_team_money self);
         ("exposed", _detect_exposed self)].

(** Lines 162-170. *)
Definition _get_dota2_state (self : detector) : value :=
  VDict [("combat", VBool (_detect_combat self));
         ("utility_available", _detect_utility_available self);
         ("team_alive", _detect_team_alive self);
         ("gold", _detect_gold self);
         ("exposed", _detect_exposed self)].

(** Lines 117-126. *)
Definition get_game_specific_state (self : detector) : value :=
  if String.eqb (game_name self) "valorant" then _get_valorant_state self
  else if String.eqb (game_name self) "csgo" then _get_csgo_state self
  else if String.eqb (game_name self) "dota2" then _get_dota2_state self
  else VDict [].

(** Lines 106-115: the frame is stored, the state is detected from it and
    stored, and returned.  No detector raises, so the [except] branch that
    would return the previous state is not taken. *)
Definition process_frame (self : detector) (f : option frame) : detector * value :=
  let self1 := {| game_name := game_name self; config := config self;
                  last_frame := f; last_state := last_state self |} in
  let state := get_game_specific_state self1 in
  ({| game_name := game_name self1; config := config self1;
      last_frame := last_frame self1; last_state := state |}, state).

End Detector.

End GameStateDetector.

(** The rules of a list that match a state, by their ['id']. *)
Definition matching_ids (rules : list value) (state : value) : list (result value) :=
  map (fun r => py_get r "id" VNone) (filter (fun r => rule_matches r state) rules).

(** The ['id'] of each entry of a result. *)
Definition result_ids (r : result (list value)) : result (list (result value)) :=
  match r with
  | Ok l => Ok (map (fun x => py_get x "id" VNone) l)
  | Raise e => Raise e
  end.

(** The keys of a dict object; none for another object. *)
Definition state_keys (state : value) : list string :=
  match state with
  | VDict s => keys s
  | _ => []
  end.

(** The sort keys that are integers, and those that are strings. *)
Definition int_key (x : value * value) : bool :=
  match fst x with VInt _ => true | _ => false end.

Definition str_key (x : value * value) : bool :=
  match fst x with VStr _ => true | _ => false end.

(** * Proofs *)

(** ** The exception monad *)

Lemma bind_Ok {A B : Type} (a : A) (f : A -> result B) : bind (Ok a) f = f a.
Proof. reflexivity. Qed.

Lemma bind_Raise {A B : Type} (e : exn) (f : A -> result B) :
  bind (Raise e) f = Raise e.
Proof. reflexivity. Qed.

Lemma try_except_total {A : Type} (m : result A) (d : A) :
  exists a, try_except m (fun _ => Ok d) = Ok a.
Proof. destruct m; simpl; eauto. Qed.

Lemma try_except_Raise {A : Type} (m : result A) (d : A) (e : exn) :
  m = Raise e -> try_except m (fun _ => Ok d) = Ok d.
Proof. intros ->. reflexivity. Qed.

(** ** Equality of objects *)

Lemma py_eq_not_dict (sv : value) (e : dict) :
  isinstance_dict sv = false -> py_eq sv (VDict e) = false.
Proof. destruct sv; simpl; intros H; try reflexivity; discriminate. Qed.

Lemma py_eq_int_bool (z : Z) (b : bool) :
  py_eq (VInt z) (VBool b) = true <-> z = Z.b2z b.
Proof. simpl. apply Z.eqb_eq. Qed.

Lemma py_eq_str_bool (s : string) (b : bool) : py_eq (VStr s) (VBool b) = false.
Proof. reflexivity. Qed.

Lemma py_eq_str_int (s : string) (z : Z) : py_eq (VStr s) (VInt z) = false.
Proof. reflexivity. Qed.

(** ** The loops of [_check_conditions] *)

Section ForLoop.

Context {A : Type} (body : A -> result (option bool)).

(** A loop whose body either goes on or returns [false] returns [false]
    exactly when some item fails. *)
Lemma for_loop_all (ok : A -> bool) (l : list A) :
  (forall x, In x l -> body x = Ok (if ok x then None else Some false)) ->
  for_loop body l = Ok (if forallb ok l then None else Some false).
Proof.
  induction l as [|x l IH]; intros Hb; simpl.
  - reflexivity.
  - rewrite (Hb x (or_introl eq_refl)).
    destruct (ok x); simpl.
    + apply IH. intros y Hy. apply Hb. now right.
    + reflexivity.
Qed.

(** A body that passes no item makes a loop over at least one item
    return [false] or raise. *)
Lemma for_loop_no_item_passes (l : list A) :
  l <> [] ->
  (forall x, In x l -> body x = Ok (Some false) \/ exists e, body x = Raise e) ->
  for_loop body l = Ok (Some false) \/ exists e, for_loop body l = Raise e.
Proof.
  destruct l as [|x l]; intros Hne Hb; [congruence|].
  simpl. destruct (Hb x (or_introl eq_refl)) as [-> | [e ->]]; simpl; eauto.
Qed.

End ForLoop.

Lemma check_subkey_dict (s : dict) (key : string) (sd : dict)
    (item : string * value) :
  dict_lookup s key = Some (VDict sd) ->
  check_subkey (VDict s) key item = Ok (if sub_ok sd item then None else Some false).
Proof.
  intros Hk. destruct item as [subkey subval].
  unfold check_subkey, sub_ok; simpl. rewrite Hk; simpl.
  destruct (dict_lookup sd subkey) as [x|]; simpl; [|reflexivity].
  unfold py_ne. destruct (py_eq x subval); reflexivity.
Qed.

Lemma check_key_dict (s : dict) (item : string * value) :
  check_key (VDict s) item
  = Ok (if cond_ok (VDict s) item then None else Some false).
Proof.
  destruct item as [key value]. unfold check_key, cond_ok; simpl.
  destruct (dict_lookup s key) as [sv|] eqn:Hk; simpl; [|reflexivity].
  destruct value as [| b | z | t | l | e]; simpl;
    try (unfold py_ne; destruct (py_eq sv _); reflexivity).
  destruct sv as [| b | z | t | l | sd]; simpl; try reflexivity.
  apply for_loop_all. intros x _. now apply check_subkey_dict.
Qed.

Lemma check_key_not_dict (state : value) (item : string * value) :
  isinstance_dict state = false ->
  check_key state item = Ok (Some false) \/ exists e, check_key state item = Raise e.
Proof.
  intros Hs. destruct item as [key value]. unfold check_key.
  destruct state as [| b | z | t | l | s]; simpl in *; try discriminate; eauto.
  - destruct (substring key t); simpl; eauto.
    destruct (isinstance_dict value); simpl; eauto.
  - destruct (existsb _ l); simpl; eauto.
    destruct (isinstance_dict value); simpl; eauto.
Qed.

Lemma cond_ok_not_dict (state : value) (item : string * value) :
  isinstance_dict state = false -> cond_ok state item = false.
Proof. destruct state; simpl; intros H; try reflexivity; discriminate. Qed.

(** [_check_conditions] computes [matches], whatever the rule and the
    state are. *)
Lemma check_conditions_matches (suggestion state : value) :
  _check_conditions suggestion state = Ok (matches suggestion state).
Proof.
  unfold _check_conditions, check_conditions_body, matches.
  destruct suggestion as [| b | z | t | l | r]; try reflexivity.
  simpl. destruct (dict_lookup r "conditions") as [c|]; simpl; [|reflexivity].
  destruct c as [| b | z | t | l | c]; try reflexivity. simpl.
  destruct (isinstance_dict state) eqn:Hs.
  - destruct state; try discriminate.
    rewrite (for_loop_all (check_key (VDict d)) (cond_ok (VDict d)))
      by (intros; apply check_key_dict).
    destruct (forallb _ c); reflexivity.
  - destruct c as [|item c]; [reflexivity|].
    assert (Hf : forallb (cond_ok state) (item :: c) = false)
      by (simpl; now rewrite cond_ok_not_dict).
    rewrite Hf.
    destruct (for_loop_no_item_passes (check_key state) (item :: c)) as [-> | [e ->]];
      try reflexivity; try congruence.
    intros x _. now apply check_key_not_dict.
Qed.

Lemma rule_matches_matches (suggestion state : value) :
  rule_matches suggestion state = matches suggestion state.
Proof. unfold rule_matches. now rewrite check_conditions_matches. Qed.

Lemma check_conditions_total (suggestion state : value) :
  _check_conditions suggestion state = Ok (rule_matches suggestion state).
Proof. rewrite rule_matches_matches. apply check_conditions_matches. Qed.

(** ** The filtering loop *)

(** The loop appends the matching rules to [active] in catalog order; a
    rule whose check faults is skipped and the loop goes on. *)
Lemma filter_active_filter (state : value) (rules active : list value) :
  filter_active state rules active
  = Ok (active ++ filter (fun r => rule_matches r state) rules).
Proof.
  revert active. induction rules as [|r rules IH]; intros active; simpl.
  - now rewrite app_nil_r.
  - rewrite check_conditions_total; simpl.
    destruct (rule_matches r state).
    + rewrite IH. now rewrite <- app_assoc.
    + apply IH.
Qed.

(** ** Sorting by priority *)

Lemma well_formed_getitem (r : value) :
  well_formed_rule r = true -> py_getitem r "priority" = Ok (VInt (priority r)).
Proof.
  unfold well_formed_rule, priority, priority_of.
  destruct (py_getitem r "priority") as [v|e]; [|discriminate].
  destruct v; try discriminate. reflexivity.
Qed.

Lemma sort_keys_well_formed (l : list value) :
  forallb well_formed_rule l = true -> sort_keys l = Ok (map keyed l).
Proof.
  induction l as [|x l IH]; simpl; intros H; [reflexivity|].
  apply andb_prop in H as [Hx Hl].
  rewrite (well_formed_getitem x Hx); simpl.
  now rewrite (IH Hl).
Qed.

Lemma insert_by_key_keyed (x : value) (l : list value) :
  insert_by_key (keyed x) (map keyed l) = Ok (map keyed (insert_priority x l)).
Proof.
  induction l as [|y l IH]; simpl; [reflexivity|].
  destruct (Z.ltb (priority y) (priority x)); simpl; [|reflexivity].
  now rewrite IH.
Qed.

Lemma sort_by_key_keyed (l : list value) :
  sort_by_key (map keyed l) = Ok (map keyed (sort_priority l)).
Proof.
  induction l as [|x l IH]; simpl; [reflexivity|].
  rewrite IH; simpl. apply insert_by_key_keyed.
Qed.

Lemma map_snd_keyed (l : list value) : map snd (map keyed l) = l.
Proof. induction l as [|x l IH]; simpl; [reflexivity | now rewrite IH]. Qed.

(** On rules with integer priorities the sort raises nothing and returns
    the reference sort. *)
Lemma py_sort_priority_well_formed (l : list value) :
  forallb well_formed_rule l = true -> py_sort_priority l = Ok (sort_priority l).
Proof.
  intros H. unfold py_sort_priority.
  rewrite (sort_keys_well_formed l H); simpl.
  rewrite sort_by_key_keyed; simpl.
  now rewrite map_snd_keyed.
Qed.

Lemma insert_priority_perm (x : value) (l : list value) :
  Permutation (insert_priority x l) (x :: l).
Proof.
  induction l as [|y l IH]; simpl; [apply Permutation_refl|].
  destruct (Z.ltb (priority y) (priority x)).
  - eapply Permutation_trans; [apply perm_skip, IH | apply perm_swap].
  - apply Permutation_refl.
Qed.

Lemma sort_priority_perm (l : list value) : Permutation (sort_priority l) l.
Proof.
  induction l as [|x l IH]; simpl; [constructor|].
  eapply Permutation_trans; [apply insert_priority_perm | now apply perm_skip].
Qed.

Lemma insert_priority_sorted (x : value) (l : list value) :
  StronglySorted priority_le l -> StronglySorted priority_le (insert_priority x l).
Proof.
  induction l as [|y l IH]; intros Hs; simpl.
  - constructor; constructor.
  - inversion Hs as [|? ? Hl Hy]; subst.
    destruct (Z.ltb (priority y) (priority x)) eqn:Hlt.
    + constructor; [now apply IH|].
      apply Z.ltb_lt in Hlt.
      eapply Permutation_Forall;
        [apply Permutation_sym, insert_priority_perm|].
      constructor; [unfold priority_le; lia | exact Hy].
    + apply Z.ltb_ge in Hlt.
      constructor; [exact Hs|].
      constructor; [exact Hlt|].
      eapply Forall_impl; [|exact Hy].
      intros a Ha. unfold priority_le in *. lia.
Qed.

Lemma sort_priority_sorted (l : list value) :
  StronglySorted priority_le (sort_priority l).
Proof.
  induction l as [|x l IH]; simpl; [constructor|].
  now apply insert_priority_sorted.
Qed.

(** Stability: the rules of one priority keep their order. *)
Lemma insert_priority_stable (p : Z) (x : value) (l : list value) :
  filter (fun r => Z.eqb (priority r) p) (insert_priority x l)
  = filter (fun r => Z.eqb (priority r) p) (x :: l).
Proof.
  induction l as [|y l IH]; [reflexivity|].
  simpl insert_priority.
  destruct (Z.ltb (priority y) (priority x)) eqn:Hlt; [|reflexivity].
  apply Z.ltb_lt in Hlt.
  cbn [filter] in *. rewrite IH.
  destruct (Z.eqb (priority x) p) eqn:Hx, (Z.eqb (priority y) p) eqn:Hy;
    try reflexivity.
  apply Z.eqb_eq in Hx, Hy. lia.
Qed.

Lemma sort_priority_stable (p : Z) (l : list value) :
  filter (fun r => Z.eqb (priority r) p) (sort_priority l)
  = filter (fun r => Z.eqb (priority r) p) l.
Proof.
  induction l as [|x l IH]; [reflexivity|].
  simpl sort_priority. rewrite insert_priority_stable.
  cbn [filter]. now rewrite IH.
Qed.

Lemma StronglySorted_firstn {A : Type} (R : A -> A -> Prop) (n : nat) (l : list A) :
  StronglySorted R l -> StronglySorted R (firstn n l).
Proof.
  revert n. induction l as [|x l IH]; intros n Hs.
  - rewrite firstn_nil. constructor.
  - destruct n as [|n]; simpl; [constructor|].
    inversion Hs as [|? ? Hl Hx]; subst.
    constructor; [now apply IH|].
    apply Forall_forall. intros y Hy.
    rewrite Forall_forall in Hx. apply Hx.
    revert Hy. clear. revert n.
    induction l as [|a l IH]; intros n Hy.
    + now rewrite firstn_nil in Hy.
    + destruct n; simpl in Hy; [contradiction|].
      destruct Hy as [->|Hy]; [now left | right; eauto].
Qed.

Lemma filter_firstn_prefix {A : Type} (f : A -> bool) (n : nat) (l : list A) :
  filter f l = filter f (firstn n l) ++ filter f (skipn n l).
Proof. now rewrite <- filter_app, firstn_skipn. Qed.

Lemma filter_filter {A : Type} (f g : A -> bool) (l : list A) :
  filter g (filter f l) = filter (fun x => f x && g x) l.
Proof.
  induction l as [|x l IH]; simpl; [reflexivity|].
  destruct (f x); simpl; [destruct (g x)|]; now rewrite IH.
Qed.

Lemma forallb_agree {A : Type} (f g : A -> bool) (l : list A) :
  (forall x, In x l -> f x = g x) -> forallb f l = forallb g l.
Proof.
  induction l as [|x l IH]; simpl; intros H; [reflexivity|].
  rewrite (H x (or_introl eq_refl)), IH; [reflexivity|].
  intros y Hy. apply H. now right.
Qed.

Lemma forallb_filter_weaken {A : Type} (f g : A -> bool) (l : list A) :
  forallb g l = true -> forallb g (filter f l) = true.
Proof.
  induction l as [|x l IH]; simpl; [reflexivity|].
  intros H. apply andb_prop in H as [Hx Hl].
  destruct (f x); simpl; [rewrite Hx|]; auto.
Qed.

(** The first [n] of the sorted matching rules are sorted, and their rules
    of one priority are an initial part of the matching rules of that
    priority in the order of [rules]. *)
Lemma ranked_sorted (f : value -> bool) (n : nat) (rules : list value) :
  StronglySorted priority_le (firstn n (sort_priority (filter f rules))).
Proof. apply StronglySorted_firstn, sort_priority_sorted. Qed.

Lemma ranked_stable (f : value -> bool) (n : nat) (rules : list value) (p : Z) :
  exists rest,
    filter (fun r => f r && Z.eqb (priority r) p) rules
    = filter (fun r => Z.eqb (priority r) p)
        (firstn n (sort_priority (filter f rules))) ++ rest.
Proof.
  eexists. rewrite <- filter_filter, <- (sort_priority_stable p).
  apply filter_firstn_prefix.
Qed.

(** ** [get_suggestions] *)

(** With integer priorities nothing raises: the result is the first three
    of the matching rules sorted by priority. *)
Lemma get_suggestions_well_formed (self : AISuggestionPipeline) (state : value)
    (game : string) (rules : list value) :
  rules_for self game = Ok (VList rules) ->
  forallb well_formed_rule rules = true ->
  get_suggestions self state (Some game)
  = Ok (firstn 3 (sort_priority (filter (fun r => rule_matches r state) rules))).
Proof.
  intros Hr Hwf. unfold get_suggestions, get_suggestions_body.
  unfold rules_for in Hr. rewrite Hr; simpl.
  rewrite filter_active_filter; simpl.
  rewrite py_sort_priority_well_formed by now apply forallb_filter_weaken.
  reflexivity.
Qed.

Lemma get_suggestions_total (self : AISuggestionPipeline) (state : value)
    (game : option string) :
  exists result, get_suggestions self state game = Ok result.
Proof. unfold get_suggestions. apply try_except_total. Qed.

Lemma get_suggestions_length (self : AISuggestionPipeline) (state : value)
    (game : option string) (result : list value) :
  get_suggestions self state game = Ok result -> (List.length result <= 3)%nat.
Proof.
  unfold get_suggestions, get_suggestions_body.
  set (g := match game with Some g => g | None => "valorant" end).
  destruct (py_get (suggestions self) g (VList [])) as [gs|e]; simpl;
    [|intros [= <-]; simpl; lia].
  destruct (py_iter gs) as [rules|e]; simpl; [|intros [= <-]; simpl; lia].
  destruct (filter_active state rules []) as [active|e]; simpl;
    [|intros [= <-]; simpl; lia].
  destruct (py_sort_priority active) as [sorted|e]; simpl;
    [|intros [= <-]; simpl; lia].
  intros [= <-]. destruct sorted as [|a [|b [|c sorted]]]; simpl; lia.
Qed.

(** ** Conditions, one key at a time *)

Lemma matches_conditions (suggestion state : value) (conds : dict) :
  py_get suggestion "conditions" (VDict []) = Ok (VDict conds) ->
  matches suggestion state = forallb (cond_ok state) conds.
Proof.
  unfold py_get, matches.
  destruct suggestion as [| b | z | t | l | r]; try discriminate.
  destruct (dict_lookup r "conditions") as [c|]; intros [= H]; subst; reflexivity.
Qed.

Lemma matches_malformed (suggestion state : value) :
  (forall conds, py_get suggestion "conditions" (VDict []) <> Ok (VDict conds)) ->
  matches suggestion state = false.
Proof.
  unfold py_get, matches. intros H.
  destruct suggestion as [| b | z | t | l | r]; try reflexivity.
  destruct (dict_lookup r "conditions") as [c|].
  - destruct c; try reflexivity. now destruct (H d).
  - now destruct (H []).
Qed.

(** The loop body lets the loop go on exactly when the condition holds. *)
Lemma check_key_passes (state : value) (item : string * value) :
  check_key state item = Ok None <-> cond_ok state item = true.
Proof.
  destruct (isinstance_dict state) eqn:Hs.
  - destruct state; try discriminate. rewrite check_key_dict.
    destruct (cond_ok (VDict d) item); split; congruence.
  - rewrite cond_ok_not_dict by assumption.
    destruct (check_key_not_dict state item Hs) as [-> | [e ->]];
      split; congruence.
Qed.

Lemma getitem_contains (state : value) (k : string) (sv : value) :
  py_getitem state k = Ok sv ->
  exists s, state = VDict s /\ dict_lookup s k = Some sv.
Proof.
  destruct state as [| b | z | t | l | s]; simpl; try discriminate.
  destruct (dict_lookup s k) as [x|] eqn:Hk; intros [= ->]. eauto.
Qed.

Lemma cond_ok_absent (state : value) (k : string) (expected : value) :
  py_contains state k = Ok false -> cond_ok state (k, expected) = false.
Proof.
  destruct state as [| b | z | t | l | s]; simpl; try reflexivity.
  destruct (dict_lookup s k); [discriminate | reflexivity].
Qed.

Lemma cond_ok_plain (state : value) (k : string) (expected sv : value) :
  isinstance_dict expected = false ->
  py_getitem state k = Ok sv ->
  cond_ok state (k, expected) = py_eq sv expected.
Proof.
  intros He Hg. apply getitem_contains in Hg as (s & -> & Hk).
  simpl. rewrite Hk. destruct expected; try reflexivity. discriminate.
Qed.

Lemma cond_ok_nested (state : value) (k : string) (e sd : dict) :
  py_getitem state k = Ok (VDict sd) ->
  cond_ok state (k, VDict e) = forallb (sub_ok sd) e.
Proof.
  intros Hg. apply getitem_contains in Hg as (s & -> & Hk).
  simpl. now rewrite Hk.
Qed.

Lemma cond_ok_nested_not_dict (state : value) (k : string) (e : dict) (sv : value) :
  py_getitem state k = Ok sv ->
  isinstance_dict sv = false ->
  cond_ok state (k, VDict e) = false.
Proof.
  intros Hg Hsv. apply getitem_contains in Hg as (s & -> & Hk).
  simpl. rewrite Hk. destruct sv; try reflexivity. discriminate.
Qed.

Lemma cond_ok_present (state : value) (item : string * value) :
  cond_ok state item = true -> exists sv, py_getitem state (fst item) = Ok sv.
Proof.
  destruct state as [| b | z | t | l | s]; simpl; try discriminate.
  destruct (dict_lookup s (fst item)) as [sv|]; [eauto | discriminate].
Qed.

Lemma forallb_sub_ok (sd e : dict) :
  forallb (sub_ok sd) e = true <->
  forall sk sub, In (sk, sub) e ->
    exists x, dict_lookup sd sk = Some x /\ py_eq x sub = true.
Proof.
  rewrite forallb_forall. split.
  - intros H sk sub Hin. specialize (H _ Hin). unfold sub_ok in H; simpl in H.
    destruct (dict_lookup sd sk) as [x|]; [eauto | discriminate].
  - intros H [sk sub] Hin. destruct (H sk sub Hin) as (x & Hx & Heq).
    unfold sub_ok; simpl. now rewrite Hx.
Qed.

(** A rule matches exactly when the loop body passes every condition. *)
Lemma rule_matches_all_keys (suggestion state : value) (conds : dict) :
  py_get suggestion "conditions" (VDict []) = Ok (VDict conds) ->
  rule_matches suggestion state = true <->
  forall item, In item conds -> check_key state item = Ok None.
Proof.
  intros Hc. rewrite rule_matches_matches, (matches_conditions _ _ _ Hc).
  rewrite forallb_forall. split; intros H item Hin.
  - apply check_key_passes; auto.
  - apply check_key_passes; auto.
Qed.

(** ** Unrelated fields *)

Lemma dict_lookup_set_other (s : dict) (k k' : string) (v : value) :
  k' <> k -> dict_lookup (dict_set s k v) k' = dict_lookup s k'.
Proof.
  intros Hne. induction s as [|[k0 v0] s IH]; simpl.
  - destruct (String.eqb_spec k' k); [contradiction | reflexivity].
  - destruct (String.eqb_spec k k0) as [-> | Hk]; simpl.
    + destruct (String.eqb_spec k' k0); [contradiction | reflexivity].
    + now rewrite IH.
Qed.

Lemma dict_lookup_set_same (s : dict) (k : string) (v : value) :
  dict_lookup (dict_set s k v) k = Some v.
Proof.
  induction s as [|[k0 v0] s IH]; simpl.
  - now rewrite String.eqb_refl.
  - destruct (String.eqb_spec k k0) as [-> | Hk]; simpl.
    + now rewrite String.eqb_refl.
    + destruct (String.eqb_spec k k0); [contradiction | exact IH].
Qed.

Lemma cond_ok_set_other (s : dict) (k : string) (v : value) (item : string * value) :
  fst item <> k ->
  cond_ok (VDict (dict_set s k v)) item = cond_ok (VDict s) item.
Proof. intros Hne. unfold cond_ok. now rewrite dict_lookup_set_other. Qed.

(** ** The shipped table *)

(** Every rule of the shipped table is a dict with an integer priority,
    so the hypotheses of the ranking theorems hold for every domain. *)
Lemma shipped_rules_well_formed (game : string) (rules : list value) :
  rules_for __init__ game = Ok (VList rules) ->
  forallb well_formed_rule rules = true.
Proof.
  unfold rules_for, __init__, SUGGESTIONS; simpl.
  destruct (String.eqb game "valorant"); [intros [= <-]; reflexivity|].
  destruct (String.eqb game "csgo"); [intros [= <-]; reflexivity|].
  destruct (String.eqb game "dota2"); intros [= <-]; reflexivity.
Qed.

Lemma shipped_rules_are_lists (game : string) :
  exists rules, rules_for __init__ game = Ok (VList rules).
Proof.
  unfold rules_for, __init__, SUGGESTIONS; simpl.
  destruct (String.eqb game "valorant"); [eauto|].
  destruct (String.eqb game "csgo"); [eauto|].
  destruct (String.eqb game "dota2"); eauto.
Qed.

(** On the shipped table the result is, for every state and domain, the
    first three of the matching rules in stable priority order. *)
Lemma shipped_get_suggestions (state : value) (game : string) :
  exists rules,
    rules_for __init__ game = Ok (VList rules) /\
    get_suggestions __init__ state (Some game)
    = Ok (firstn 3 (sort_priority (filter (fun r => rule_matches r state) rules))).
Proof.
  destruct (shipped_rules_are_lists game) as [rules Hr].
  exists rules. split; [exact Hr|].
  apply get_suggestions_well_formed; [exact Hr|].
  now apply (shipped_rules_well_formed game).
Qed.

Lemma shipped_sorted_stable (state : value) (game : string) :
  exists rules result,
    rules_for __init__ game = Ok (VList rules) /\
    get_suggestions __init__ state (Some game) = Ok result /\
    StronglySorted priority_le result /\
    forall p, exists rest,
      filter (fun r => rule_matches r state && Z.eqb (priority r) p) rules
      = filter (fun r => Z.eqb (priority r) p) result ++ rest.
Proof.
  destruct (shipped_get_suggestions state game) as (rules & Hr & Hres).
  exists rules. eexists. split; [exact Hr|]. split; [exact Hres|].
  split; [apply ranked_sorted | apply ranked_stable].
Qed.

(** ** Sample runs *)

Example substring_samples :
  substring "" "abc" = true /\ substring "b" "abc" = true /\
  substring "bc" "abc" = true /\ substring "d" "abc" = false /\
  substring "" "" = true /\ substring "abcd" "abc" = false.
Proof. repeat split. Qed.

Example py_eq_samples :
  py_eq (VBool true) (VInt 1) = true /\
  py_eq (VInt 0) (VBool false) = true /\
  py_eq (VInt 2) (VBool true) = false /\
  py_eq (VStr "True") (VBool true) = false /\
  py_eq VNone (VBool false) = false /\
  py_eq (VList [VInt 1; VInt 2]) (VList [VBool true; VInt 2]) = true /\
  py_eq (VDict [("Q", VBool true); ("E", VBool false)])
        (VDict [("E", VInt 0); ("Q", VInt 1)]) = true /\
  py_eq (VDict [("Q", VBool true)]) (VDict [("Q", VBool true); ("E", VBool false)])
  = false.
Proof. repeat split. Qed.

Example py_lt_samples :
  py_lt (VInt 1) (VInt 2) = Ok true /\
  py_lt (VBool true) (VInt 1) = Ok false /\
  py_lt (VStr "a") (VStr "b") = Ok true /\
  py_lt (VInt 1) (VStr "b") = Raise TypeError /\
  py_lt VNone VNone = Raise TypeError /\
  py_lt (VList [VInt 1; VStr "a"]) (VList [VInt 2; VInt 0]) = Ok true /\
  py_lt (VList [VInt 1; VStr "a"]) (VList [VInt 1; VInt 0]) = Raise TypeError.
Proof. repeat split. Qed.

(** State [{"exposed": True}] on 'valorant': the exposed warning at
    priority 2, then the default tip. *)
Example exposed_state_run :
  option_map (map (fun r => (py_get r "id" VNone, priority r)))
    (match get_suggestions __init__ (VDict [("exposed", VBool true)])
             (Some "valorant") with
     | Ok l => Some l
     | Raise _ => None
     end)
  = Some [(Ok (VStr "exposed_warning"), 2%Z); (Ok (VStr "default_tip"), 99%Z)].
Proof. reflexivity. Qed.

(** State [{"team_money": "low", "round_time": "late"}] on 'csgo': the
    save-money rule of that domain. *)
Example csgo_save_money_run :
  get_suggestions __init__
    (VDict [("team_money", VStr "low"); ("round_time", VStr "late")])
    (Some "csgo")
  = Ok [nth 1 csgo_rules VNone].
Proof. reflexivity. Qed.

(** A sort that meets keys it cannot compare raises, and the method
    returns the empty list. *)
Example mixed_priorities_run :
  py_sort_priority [VDict [("priority", VInt 1)]; VDict [("priority", VStr "high")]]
  = Raise TypeError /\
  get_suggestions
    {| suggestions :=
         VDict [("g", VList [VDict [("priority", VInt 1)];
                             VDict [("priority", VStr "high")]])] |}
    (VDict []) (Some "g") = Ok [].
Proof. split; reflexivity. Qed.

(** * The properties of the specification *)

(** ** Plain conditions *)

(** C1, as the code has it: a plain (scalar) condition on key [k] is
    compared with Python's [==].  A rule that matches has, under every
    scalar condition key, a state value equal to the expected one in that
    sense; a rule with the single condition [k] matches exactly when the
    two are [==].  Booleans are the numbers 0 and 1 for [==], so the
    integer 1 satisfies an expected [True]; a string equals neither a
    boolean nor a number. *)
Theorem scalar_condition_python_equality :
  forall (suggestion state : value) (conds : dict) (k : string) (expected : value),
    py_get suggestion "conditions" (VDict []) = Ok (VDict conds) ->
    In (k, expected) conds ->
    is_scalar expected = true ->
    (rule_matches suggestion state = true ->
       exists sv, py_getitem state k = Ok sv /\ py_eq sv expected = true) /\
    (forall sv, py_getitem state k = Ok sv ->
       rule_matches (rule_with [(k, expected)]) state = py_eq sv expected) /\
    (forall z b, py_eq (VInt z) (VBool b) = true <-> z = Z.b2z b) /\
    (forall t b, py_eq (VStr t) (VBool b) = false) /\
    (forall t z, py_eq (VStr t) (VInt z) = false).
Proof.
  intros suggestion state conds k expected Hc Hin Hsc.
  assert (Hnd : isinstance_dict expected = false)
    by (destruct expected; simpl in *; congruence).
  split; [|split; [|split; [|split]]].
  - rewrite rule_matches_matches, (matches_conditions _ _ _ Hc).
    rewrite forallb_forall. intros H. specialize (H _ Hin).
    destruct (cond_ok_present _ _ H) as [sv Hsv]. simpl in Hsv.
    exists sv. split; [exact Hsv|].
    now rewrite <- (cond_ok_plain state k expected sv Hnd Hsv).
  - intros sv Hsv. rewrite rule_matches_matches. unfold rule_with, matches. simpl.
    rewrite (cond_ok_plain state k expected sv Hnd Hsv). apply andb_true_r.
  - apply py_eq_int_bool.
  - apply py_eq_str_bool.
  - apply py_eq_str_int.
Qed.

Lemma scalar_condition_python_equality_witness :
  rule_matches combat_rule (VDict [("combat", VInt 1)]) = true /\
  rule_matches combat_rule (VDict [("combat", VStr "True")]) = false /\
  rule_matches combat_rule (VDict [("combat", VBool true)]) = true.
Proof.
  destruct (scalar_condition_python_equality combat_rule
              (VDict [("combat", VInt 1)]) [("combat", VBool true)]
              "combat" (VBool true) eq_refl (or_introl eq_refl) eq_refl)
    as (_ & H1 & _).
  destruct (scalar_condition_python_equality combat_rule
              (VDict [("combat", VStr "True")]) [("combat", VBool true)]
              "combat" (VBool true) eq_refl (or_introl eq_refl) eq_refl)
    as (_ & H2 & _).
  destruct (scalar_condition_python_equality combat_rule
              (VDict [("combat", VBool true)]) [("combat", VBool true)]
              "combat" (VBool true) eq_refl (or_introl eq_refl) eq_refl)
    as (_ & H3 & _).
  split; [|split].
  - exact (H1 (VInt 1) eq_refl).
  - exact (H2 (VStr "True") eq_refl).
  - exact (H3 (VBool true) eq_refl).
Defined.

(** C1, as the specification has it, fails: the state [{"combat": 1}]
    satisfies the condition [{"combat": True}], although the integer 1
    and the boolean are different objects. *)
Lemma integer_one_satisfies_true :
  _check_conditions combat_rule (VDict [("combat", VInt 1)]) = Ok true /\
  ~ type_sensitive_matching.
Proof.
  split; [reflexivity|].
  intros H.
  specialize (H [("combat", VInt 1)] "combat" (VBool true) (VInt 1)
                eq_refl eq_refl eq_refl).
  discriminate H.
Qed.

(** ** Ranking *)

(** C2: when the catalog entry of the domain is a list of rules with
    integer priorities, [get_suggestions] returns a list sorted by
    ascending priority, and for every priority [p] the returned rules of
    priority [p] are an initial part of the matching rules of priority [p]
    taken in catalog order. *)
Theorem get_suggestions_sorted_stable :
  forall (self : AISuggestionPipeline) (state : value) (game : string)
         (rules : list value),
    rules_for self game = Ok (VList rules) ->
    forallb well_formed_rule rules = true ->
    exists result,
      get_suggestions self state (Some game) = Ok result /\
      StronglySorted priority_le result /\
      forall p, exists rest,
        filter (fun r => rule_matches r state && Z.eqb (priority r) p) rules
        = filter (fun r => Z.eqb (priority r) p) result ++ rest.
Proof.
  intros self state game rules Hr Hwf.
  exists (firstn 3 (sort_priority (filter (fun r => rule_matches r state) rules))).
  split; [now apply get_suggestions_well_formed|].
  split; [apply ranked_sorted | apply ranked_stable].
Qed.

Lemma get_suggestions_sorted_stable_witness :
  exists result,
    get_suggestions __init__
      (VDict [("combat", VBool true); ("exposed", VBool true);
              ("ultimate_available", VBool true);
              ("equipped_gun", VStr "Classic");
              ("abilities", VDict [("Q", VBool true); ("E", VBool true)])])
      (Some "valorant") = Ok result /\
    map (fun r => py_get r "id" VNone) result
    = [Ok (VStr "use_ultimate"); Ok (VStr "use_ability_q");
       Ok (VStr "exposed_warning")] /\
    StronglySorted priority_le result.
Proof.
  destruct (get_suggestions_sorted_stable __init__
              (VDict [("combat", VBool true); ("exposed", VBool true);
                      ("ultimate_available", VBool true);
                      ("equipped_gun", VStr "Classic");
                      ("abilities", VDict [("Q", VBool true); ("E", VBool true)])])
              "valorant" valorant_rules eq_refl eq_refl)
    as (result & Hres & Hsorted & _).
  exists result. split; [exact Hres|]. split; [|exact Hsorted].
  vm_compute in Hres. injection Hres as <-. reflexivity.
Defined.

(** C3: [get_suggestions] always returns a list of at most 3 entries.
    When the catalog entry is a list of rules with integer priorities,
    that list is the first 3 of the matching rules sorted by priority,
    and when at most 3 rules match it holds every matching rule once and
    nothing else. *)
Theorem get_suggestions_at_most_three :
  forall (self : AISuggestionPipeline) (state : value) (game : string),
    exists result,
      get_suggestions self state (Some game) = Ok result /\
      (List.length result <= 3)%nat /\
      forall rules,
        rules_for self game = Ok (VList rules) ->
        forallb well_formed_rule rules = true ->
        let active := filter (fun r => rule_matches r state) rules in
        result = firstn 3 (sort_priority active) /\
        ((List.length active <= 3)%nat ->
           Permutation result active /\ List.length result = List.length active).
Proof.
  intros self state game.
  destruct (get_suggestions_total self state (Some game)) as [result Hres].
  exists result. split; [exact Hres|].
  split; [now apply (get_suggestions_length self state (Some game))|].
  intros rules Hr Hwf active.
  pose proof (get_suggestions_well_formed self state game rules Hr Hwf) as Hwell.
  fold active in Hwell.
  assert (Heq : result = firstn 3 (sort_priority active)) by congruence.
  split; [exact Heq|].
  intros Hlen. rewrite Heq.
  assert (Hs : List.length (sort_priority active) = List.length active)
    by apply Permutation_length, sort_priority_perm.
  rewrite firstn_all2 by lia.
  split; [apply sort_priority_perm | exact Hs].
Qed.

Lemma get_suggestions_at_most_three_witness :
  exists result,
    get_suggestions __init__ (VDict [("exposed", VBool true)]) (Some "valorant")
    = Ok result /\
    List.length result = 2%nat /\
    map (fun r => py_get r "id" VNone) result
    = [Ok (VStr "exposed_warning"); Ok (VStr "default_tip")].
Proof.
  destruct (get_suggestions_at_most_three __init__
              (VDict [("exposed", VBool true)]) "valorant")
    as (result & Hres & _ & H).
  destruct (H valorant_rules eq_refl eq_refl) as (Heq & Hfew).
  exists result. split; [exact Hres|].
  destruct (Hfew ltac:(vm_compute; lia)) as (_ & Hlen).
  split; [rewrite Hlen; reflexivity|].
  rewrite Heq. reflexivity.
Defined.

(** ** Absent keys *)

(** C4: a rule does not match a state from which one of its condition
    keys is absent ([key in state] is false), whatever its other
    conditions are. *)
Theorem absent_key_no_match :
  forall (suggestion state : value) (conds : dict) (key : string)
         (expected : value),
    py_get suggestion "conditions" (VDict []) = Ok (VDict conds) ->
    In (key, expected) conds ->
    py_contains state key = Ok false ->
    _check_conditions suggestion state = Ok false.
Proof.
  intros suggestion state conds key expected Hc Hin Habs.
  rewrite check_conditions_matches, (matches_conditions _ _ _ Hc).
  f_equal. apply not_true_is_false. rewrite forallb_forall. intros H.
  specialize (H _ Hin). rewrite cond_ok_absent in H by assumption.
  discriminate.
Qed.

Lemma absent_key_no_match_witness :
  _check_conditions
    (rule_with [("combat", VBool true); ("utility_available", VBool true);
                ("close_range", VBool true)])
    (VDict [("combat", VBool true); ("close_range", VBool true)])
  = Ok false.
Proof.
  apply (absent_key_no_match _ _
           [("combat", VBool true); ("utility_available", VBool true);
            ("close_range", VBool true)]
           "utility_available" (VBool true)).
  - reflexivity.
  - simpl. right. left. reflexivity.
  - reflexivity.
Defined.

(** ** Nested conditions *)

(** C5, as the code has it: when the expected value under [k] is a nested
    mapping [e] and [state[k]] is a mapping [sd], the condition passes
    exactly when every sub-key listed in [e] is present in [sd] with a
    value that is [==] to the expected one (the sub-keys of [sd] that [e]
    does not list play no part); when [state[k]] is not a mapping the
    condition fails; a rule holding a condition that does not pass does
    not match.  The rule [{"abilities": {"Q": True}}] is not matched by
    [{"abilities": {"Q": False, "E": True}}] and is matched by
    [{"abilities": {"Q": True, "E": False}}]. *)
Theorem nested_condition_python_equality :
  forall (state : value) (k : string) (e : dict) (sv : value),
    py_getitem state k = Ok sv ->
    (forall sd, sv = VDict sd ->
       (check_key state (k, VDict e) = Ok None <->
        forall sk sub, In (sk, sub) e ->
          exists x, dict_lookup sd sk = Some x /\ py_eq x sub = true)) /\
    (isinstance_dict sv = false ->
       check_key state (k, VDict e) = Ok (Some false)) /\
    (forall suggestion conds,
       py_get suggestion "conditions" (VDict []) = Ok (VDict conds) ->
       In (k, VDict e) conds ->
       check_key state (k, VDict e) <> Ok None ->
       rule_matches suggestion state = false) /\
    rule_matches ability_q_rule
      (VDict [("abilities", VDict [("Q", VBool false); ("E", VBool true)])])
    = false /\
    rule_matches ability_q_rule
      (VDict [("abilities", VDict [("Q", VBool true); ("E", VBool false)])])
    = true.
Proof.
  intros state k e sv Hsv.
  split; [|split; [|split; [|split]]].
  - intros sd ->. rewrite check_key_passes, (cond_ok_nested _ _ _ _ Hsv).
    apply forallb_sub_ok.
  - intros Hnd.
    pose proof (cond_ok_nested_not_dict _ _ e _ Hsv Hnd) as Hc.
    destruct (getitem_contains _ _ _ Hsv) as (s & -> & _).
    rewrite check_key_dict. now rewrite Hc.
  - intros suggestion conds Hc Hin Hfail.
    apply not_true_is_false. intros Hm.
    apply (rule_matches_all_keys _ _ _ Hc) with (item := (k, VDict e)) in Hm;
      [contradiction | exact Hin].
  - reflexivity.
  - reflexivity.
Qed.

Lemma nested_condition_python_equality_witness :
  check_key (VDict [("abilities", VDict [("Q", VBool true); ("E", VBool false)])])
    ("abilities", VDict [("Q", VBool true)]) = Ok None /\
  check_key (VDict [("abilities", VStr "Q")])
    ("abilities", VDict [("Q", VBool true)]) = Ok (Some false) /\
  rule_matches
    (rule_with [("combat", VBool true); ("abilities", VDict [("Q", VBool true)])])
    (VDict [("combat", VBool true); ("abilities", VStr "Q")]) = false.
Proof.
  split; [|split].
  - destruct (nested_condition_python_equality
                (VDict [("abilities", VDict [("Q", VBool true); ("E", VBool false)])])
                "abilities" [("Q", VBool true)]
                (VDict [("Q", VBool true); ("E", VBool false)]) eq_refl)
      as (H & _).
    apply (H _ eq_refl). intros sk sub [[= <- <-] | []].
    exists (VBool true). split; reflexivity.
  - destruct (nested_condition_python_equality
                (VDict [("abilities", VStr "Q")])
                "abilities" [("Q", VBool true)] (VStr "Q") eq_refl)
      as (_ & H & _).
    exact (H eq_refl).
  - destruct (nested_condition_python_equality
                (VDict [("combat", VBool true); ("abilities", VStr "Q")])
                "abilities" [("Q", VBool true)] (VStr "Q") eq_refl)
      as (_ & _ & H & _).
    apply (H _ [("combat", VBool true); ("abilities", VDict [("Q", VBool true)])]).
    + reflexivity.
    + simpl. right. left. reflexivity.
    + vm_compute. discriminate.
Defined.

(** C5, as the specification has it, fails: a sub-key bound to the
    integer 1 passes the nested condition [{"Q": True}], although the
    state does not hold the expected object under ["Q"]. *)
Lemma nested_integer_one_satisfies_true :
  _check_conditions ability_q_rule
    (VDict [("abilities", VDict [("Q", VInt 1); ("E", VBool false)])]) = Ok true /\
  ~ nested_exact_matching.
Proof.
  split; [reflexivity|].
  intros H.
  destruct (H [("abilities", VDict [("Q", VInt 1)])] "abilities"
              [("Q", VBool true)] [("Q", VInt 1)] eq_refl) as [H1 _].
  specialize (H1 eq_refl "Q" (VBool true) (or_introl eq_refl)).
  discriminate H1.
Qed.

(** ** Empty conditions *)

(** C6: a rule whose conditions are empty matches every state.  In the
    'valorant' list [default_tip] is the only rule with empty conditions,
    every other rule names at least one key, and for the empty state
    [get_suggestions] returns exactly [default_tip]. *)
Theorem empty_conditions_match_everything :
  (forall suggestion state : value,
     has_empty_conditions suggestion = true ->
     _check_conditions suggestion state = Ok true) /\
  filter has_empty_conditions valorant_rules = [default_tip] /\
  Forall (fun r => r = default_tip \/
                   exists key, In key (condition_keys r) /\
                               py_contains (VDict []) key = Ok false)
    valorant_rules /\
  get_suggestions __init__ (VDict []) (Some "valorant") = Ok [default_tip].
Proof.
  split; [|split; [|split]].
  - intros suggestion state Hc.
    rewrite check_conditions_matches.
    rewrite (matches_conditions suggestion state []); [reflexivity|].
    unfold has_empty_conditions in Hc.
    destruct (py_get suggestion "conditions" (VDict [])) as [c|]; [|discriminate].
    destruct c as [| | | | |[|]]; try discriminate. reflexivity.
  - reflexivity.
  - unfold valorant_rules.
    repeat (apply Forall_cons;
            [first [ left; reflexivity
                   | right; eexists; split; [left; reflexivity | reflexivity] ]|]).
    apply Forall_nil.
  - reflexivity.
Qed.

Lemma empty_conditions_match_everything_witness :
  _check_conditions default_tip (VDict [("combat", VBool true)]) = Ok true /\
  _check_conditions unranked_rule (VList [VInt 3]) = Ok true.
Proof.
  split.
  - exact (proj1 empty_conditions_match_everything default_tip
                 (VDict [("combat", VBool true)]) eq_refl).
  - exact (proj1 empty_conditions_match_everything unranked_rule
                 (VList [VInt 3]) eq_refl).
Defined.

(** ** Faults *)

(** C7: [get_suggestions] returns a list on every pipeline, state and
    domain and raises nothing.  [_check_conditions] returns a boolean on
    every rule and state; when its body raises it returns [False], and the
    filtering loop then goes on with the remaining rules as if the rule
    had not been there.  When the body of [get_suggestions] raises, the
    method returns the empty list. *)
Theorem faults_are_contained :
  forall (self : AISuggestionPipeline) (state : value) (game : option string),
    (exists result, get_suggestions self state game = Ok result) /\
    (forall suggestion, exists b, _check_conditions suggestion state = Ok b) /\
    (forall suggestion e,
       check_conditions_body suggestion state = Raise e ->
       _check_conditions suggestion state = Ok false) /\
    (forall suggestion rest active e,
       check_conditions_body suggestion state = Raise e ->
       filter_active state (suggestion :: rest) active
       = filter_active state rest active) /\
    (forall rules active,
       exists active', filter_active state rules active = Ok active') /\
    (forall g e,
       get_suggestions_body self state g = Raise e ->
       get_suggestions self state (Some g) = Ok []).
Proof.
  intros self state game.
  split; [apply get_suggestions_total|].
  split; [intros suggestion; eexists; apply check_conditions_total|].
  split; [intros suggestion e H; unfold _check_conditions; now rewrite H|].
  split; [intros suggestion rest active e H; simpl;
          unfold _check_conditions; now rewrite H|].
  split; [intros rules active; eexists; apply filter_active_filter|].
  intros g e H. unfold get_suggestions. now rewrite H.
Qed.

Lemma faults_are_contained_witness :
  check_conditions_body (VInt 7) (VDict []) = Raise AttributeError /\
  _check_conditions (VInt 7) (VDict []) = Ok false /\
  filter_active (VDict []) [VInt 7; default_tip] [] = Ok [default_tip] /\
  get_suggestions faulty_pipeline (VDict []) (Some "demo") = Ok [default_tip] /\
  get_suggestions_body faulty_pipeline (VDict []) "unranked" = Raise KeyError /\
  get_suggestions faulty_pipeline (VDict []) (Some "unranked") = Ok [].
Proof.
  destruct (faults_are_contained faulty_pipeline (VDict []) (Some "demo"))
    as (_ & _ & Hcheck & Hskip & _ & Hbody).
  split; [reflexivity|].
  split; [exact (Hcheck (VInt 7) AttributeError eq_refl)|].
  split; [rewrite (Hskip (VInt 7) [default_tip] [] AttributeError eq_refl);
          reflexivity|].
  split; [reflexivity|].
  split; [reflexivity|].
  exact (Hbody "unranked" KeyError eq_refl).
Defined.

(** ** Unknown domains *)

(** C8: a domain without an entry in the catalog has the empty rule
    sequence, and [get_suggestions] returns the empty list for it, on
    every state. *)
Theorem unknown_domain_no_suggestions :
  forall (self : AISuggestionPipeline) (state : value) (game : string)
         (catalog : dict),
    suggestions self = VDict catalog ->
    dict_lookup catalog game = None ->
    rules_for self game = Ok (VList []) /\
    get_suggestions self state (Some game) = Ok [].
Proof.
  intros self state game catalog Hcat Hnone.
  assert (Hr : rules_for self game = Ok (VList []))
    by (unfold rules_for; rewrite Hcat; simpl; now rewrite Hnone).
  split; [exact Hr|].
  unfold get_suggestions, get_suggestions_body.
  unfold rules_for in Hr. rewrite Hr. reflexivity.
Qed.

Lemma unknown_domain_no_suggestions_witness :
  rules_for __init__ "unknown_game" = Ok (VList []) /\
  get_suggestions __init__ (VDict [("exposed", VBool true)]) (Some "unknown_game")
  = Ok [].
Proof.
  apply (unknown_domain_no_suggestions __init__ _ "unknown_game"
           [("valorant", VList valorant_rules); ("csgo", VList csgo_rules);
            ("dota2", VList dota2_rules)]);
    reflexivity.
Defined.

(** ** Unreferenced fields *)

(** C9: setting in the state a field whose key the rule's conditions do
    not name leaves the outcome of [_check_conditions] for that rule
    unchanged. *)
Theorem unreferenced_field_irrelevant :
  forall (suggestion : value) (s : dict) (k : string) (v : value),
    ~ In k (condition_keys suggestion) ->
    _check_conditions suggestion (VDict (dict_set s k v))
    = _check_conditions suggestion (VDict s).
Proof.
  intros suggestion s k v Hk.
  rewrite !check_conditions_matches. f_equal.
  unfold condition_keys in Hk.
  destruct (py_get suggestion "conditions" (VDict [])) as [c|e] eqn:Hc.
  - destruct c as [| b | z | t | l | conds];
      try (rewrite !matches_malformed; [reflexivity | congruence | congruence]).
    rewrite !(matches_conditions _ _ _ Hc).
    apply forallb_agree. intros item Hin.
    apply cond_ok_set_other. intros <-.
    apply Hk. unfold keys. now apply in_map.
  - rewrite !matches_malformed; [reflexivity | congruence | congruence].
Qed.

Lemma unreferenced_field_irrelevant_witness :
  _check_conditions combat_rule
    (VDict (dict_set [("combat", VBool true)] "player_health" (VInt 100)))
  = Ok true /\
  _check_conditions combat_rule
    (VDict (dict_set [("exposed", VBool true)] "player_health" (VInt 100)))
  = Ok false.
Proof.
  split.
  - rewrite (unreferenced_field_irrelevant combat_rule
               [("combat", VBool true)] "player_health" (VInt 100)).
    + reflexivity.
    + simpl. intros [H | []]. discriminate H.
  - rewrite (unreferenced_field_irrelevant combat_rule
               [("exposed", VBool true)] "player_health" (VInt 100)).
    + reflexivity.
    + simpl. intros [H | []]. discriminate H.
Defined.

(** ** The default domain *)

(** C10: a call that leaves [game] out is evaluated against the
    'valorant' entry of the catalog.  It returns what the call with
    [game='valorant'] returns; when that entry is a list of rules with
    integer priorities, this is the first three of the entry's rules that
    match the state, in stable priority order; when the catalog is a dict
    without a 'valorant' entry it is the empty list, whatever the other
    entries hold; and on the shipped table it is the ranking of
    [valorant_rules]. *)
Theorem default_game_is_valorant :
  forall (self : AISuggestionPipeline) (state : value),
    get_suggestions self state None = get_suggestions self state (Some "valorant") /\
    (forall rules,
       rules_for self "valorant" = Ok (VList rules) ->
       forallb well_formed_rule rules = true ->
       get_suggestions self state None
       = Ok (firstn 3 (sort_priority (filter (fun r => rule_matches r state) rules)))) /\
    (forall catalog,
       suggestions self = VDict catalog ->
       dict_lookup catalog "valorant" = None ->
       get_suggestions self state None = Ok []) /\
    get_suggestions __init__ state None
    = Ok (firstn 3 (sort_priority
                      (filter (fun r => rule_matches r state) valorant_rules))).
Proof.
  intros self state.
  assert (Hdefault : forall self',
            get_suggestions self' state None
            = get_suggestions self' state (Some "valorant"))
    by (intros self'; unfold get_suggestions; reflexivity).
  split; [apply Hdefault|].
  split; [|split].
  - intros rules Hr Hwf. rewrite Hdefault.
    now apply get_suggestions_well_formed.
  - intros catalog Hcat Hnone. rewrite Hdefault.
    unfold get_suggestions, get_suggestions_body.
    rewrite Hcat. simpl. rewrite Hnone. reflexivity.
  - rewrite Hdefault.
    now apply (get_suggestions_well_formed __init__ state "valorant" valorant_rules).
Qed.

Lemma default_game_is_valorant_witness :
  get_suggestions
    {| suggestions := VDict [("csgo", VList csgo_rules);
                             ("valorant", VList [default_tip])] |}
    (VDict [("team_money", VStr "low"); ("round_time", VStr "late")]) None
  = Ok [default_tip] /\
  get_suggestions {| suggestions := VDict [("csgo", VList csgo_rules)] |}
    (VDict [("team_money", VStr "low"); ("round_time", VStr "late")]) None
  = Ok [] /\
  get_suggestions __init__ (VDict []) None = Ok [default_tip].
Proof.
  split; [|split].
  - destruct (default_game_is_valorant
                {| suggestions := VDict [("csgo", VList csgo_rules);
                                         ("valorant", VList [default_tip])] |}
                (VDict [("team_money", VStr "low"); ("round_time", VStr "late")]))
      as (_ & H & _).
    rewrite (H [default_tip] eq_refl eq_refl). reflexivity.
  - destruct (default_game_is_valorant
                {| suggestions := VDict [("csgo", VList csgo_rules)] |}
                (VDict [("team_money", VStr "low"); ("round_time", VStr "late")]))
      as (_ & _ & H & _).
    exact (H [("csgo", VList csgo_rules)] eq_refl eq_refl).
  - destruct (default_game_is_valorant __init__ (VDict [])) as (_ & _ & _ & H).
    rewrite H. reflexivity.
Defined.

(** * Further properties of the matcher *)

(** ** What the sort keeps *)

Lemma insert_by_key_perm (x : value * value) (l r : list (value * value)) :
  insert_by_key x l = Ok r -> Permutation r (x :: l).
Proof.
  revert r. induction l as [|y l IH]; simpl; intros r H.
  - injection H as <-. apply Permutation_refl.
  - destruct (py_lt (fst y) (fst x)) as [b|e]; simpl in H; [|discriminate].
    destruct b.
    + destruct (insert_by_key x l) as [r'|e]; simpl in H; [|discriminate].
      injection H as <-.
      eapply Permutation_trans; [apply perm_skip, IH; reflexivity | apply perm_swap].
    + injection H as <-. apply Permutation_refl.
Qed.

Lemma sort_by_key_perm (l s : list (value * value)) :
  sort_by_key l = Ok s -> Permutation s l.
Proof.
  revert s. induction l as [|x l IH]; simpl; intros s H.
  - injection H as <-. constructor.
  - destruct (sort_by_key l) as [s'|e]; simpl in H; [|discriminate].
    eapply Permutation_trans; [apply (insert_by_key_perm _ _ _ H)|].
    apply perm_skip, IH. reflexivity.
Qed.

Lemma sort_keys_snd (l : list value) (kl : list (value * value)) :
  sort_keys l = Ok kl -> map snd kl = l.
Proof.
  revert kl. induction l as [|x l IH]; simpl; intros kl H.
  - injection H as <-. reflexivity.
  - destruct (py_getitem x "priority") as [k|e]; simpl in H; [|discriminate].
    destruct (sort_keys l) as [kl'|e]; simpl in H; [|discriminate].
    injection H as <-. simpl. now rewrite (IH kl').
Qed.

(** Whatever the keys are, a sort that raises nothing returns the rules
    it was given, each as often as before. *)
Lemma py_sort_priority_perm (l s : list value) :
  py_sort_priority l = Ok s -> Permutation s l.
Proof.
  unfold py_sort_priority. intros H.
  destruct (sort_keys l) as [kl|e] eqn:Hk; simpl in H; [|discriminate].
  destruct (sort_by_key kl) as [sk|e] eqn:Hs; simpl in H; [|discriminate].
  injection H as <-.
  rewrite <- (sort_keys_snd l kl Hk).
  apply Permutation_map. now apply sort_by_key_perm.
Qed.

Lemma sort_keys_raise (l : list value) (r : value) (e : exn) :
  In r l -> py_getitem r "priority" = Raise e ->
  exists e', sort_keys l = Raise e'.
Proof.
  induction l as [|x l IH]; simpl; intros Hin Hr; [contradiction|].
  destruct Hin as [-> | Hin].
  - rewrite Hr. simpl. eauto.
  - destruct (py_getitem x "priority") as [k|e0]; simpl; [|eauto].
    destruct (IH Hin Hr) as [e' ->]. simpl. eauto.
Qed.

Lemma in_firstn {A : Type} (n : nat) (l : list A) (x : A) :
  In x (firstn n l) -> In x l.
Proof.
  intros H. rewrite <- (firstn_skipn n l). apply in_or_app. now left.
Qed.

Lemma StronglySorted_app_le {A : Type} (R : A -> A -> Prop) (a b : list A) :
  StronglySorted R (a ++ b) ->
  forall x y, In x a -> In y b -> R x y.
Proof.
  induction a as [|z a IH]; simpl; intros Hs x y Hx Hy; [contradiction|].
  inversion Hs as [|? ? Hs' Hz]; subst.
  destruct Hx as [-> | Hx].
  - rewrite Forall_forall in Hz. apply Hz. apply in_or_app. now right.
  - now apply IH.
Qed.

(** The whole pass, when the catalog entry is iterable: the result is
    empty, or the first three of some arrangement of the matching rules. *)
Lemma get_suggestions_shape (self : AISuggestionPipeline) (state : value)
    (game : string) (entry : value) (rules : list value) :
  rules_for self game = Ok entry ->
  py_iter entry = Ok rules ->
  get_suggestions self state (Some game) = Ok [] \/
  exists sorted,
    Permutation sorted (filter (fun r => rule_matches r state) rules) /\
    get_suggestions self state (Some game) = Ok (firstn 3 sorted).
Proof.
  intros Hr Hi. unfold get_suggestions, get_suggestions_body.
  unfold rules_for in Hr. rewrite Hr; simpl. rewrite Hi; simpl.
  rewrite filter_active_filter; simpl.
  destruct (py_sort_priority (filter (fun r => rule_matches r state) rules))
    as [sorted|e] eqn:Hs; simpl.
  - right. exists sorted. split; [now apply py_sort_priority_perm | reflexivity].
  - now left.
Qed.

Lemma get_suggestions_no_rules (self : AISuggestionPipeline) (state : value)
    (game : string) :
  (forall entry rules, rules_for self game = Ok entry -> py_iter entry <> Ok rules) ->
  get_suggestions self state (Some game) = Ok [].
Proof.
  intros H. unfold get_suggestions, get_suggestions_body.
  unfold rules_for in H.
  destruct (py_get (suggestions self) game (VList [])) as [entry|e]; simpl;
    [|reflexivity].
  destruct (py_iter entry) as [rules|e] eqn:Hi; simpl; [|reflexivity].
  now destruct (H entry rules eq_refl).
Qed.

(** X1: every entry [get_suggestions] returns is a rule of the domain's
    catalog entry that matches the state, whatever the catalog, the rules
    and the state look like. *)
Theorem returned_rules_match :
  forall (self : AISuggestionPipeline) (state : value) (game : string)
         (result : list value) (r : value),
    get_suggestions self state (Some game) = Ok result ->
    In r result ->
    rule_matches r state = true /\
    exists entry rules,
      rules_for self game = Ok entry /\ py_iter entry = Ok rules /\ In r rules.
Proof.
  intros self state game result r Hres Hin.
  destruct (rules_for self game) as [entry|e] eqn:Hr.
  - destruct (py_iter entry) as [rules|e] eqn:Hi.
    + destruct (get_suggestions_shape self state game entry rules Hr Hi)
        as [Hnil | (sorted & Hperm & Hs)].
      * rewrite Hnil in Hres. injection Hres as <-. contradiction.
      * assert (Heq : result = firstn 3 sorted) by congruence.
        rewrite Heq in Hin. apply in_firstn in Hin.
        apply (Permutation_in _ Hperm) in Hin.
        apply filter_In in Hin as [Hrules Hm].
        split; [exact Hm|]. exists entry, rules. auto.
    + rewrite get_suggestions_no_rules in Hres.
      * injection Hres as <-. contradiction.
      * intros entry' rules' Hr'. rewrite Hr in Hr'. injection Hr' as <-.
        congruence.
  - rewrite get_suggestions_no_rules in Hres.
    + injection Hres as <-. contradiction.
    + intros entry' rules' Hr'. rewrite Hr in Hr'. discriminate.
Qed.

Lemma returned_rules_match_witness :
  rule_matches default_tip (VDict [("exposed", VBool true)]) = true /\
  exists entry rules,
    rules_for __init__ "valorant" = Ok entry /\ py_iter entry = Ok rules /\
    In default_tip rules.
Proof.
  apply (returned_rules_match __init__ (VDict [("exposed", VBool true)])
           "valorant" [nth 1 valorant_rules VNone; default_tip] default_tip).
  - reflexivity.
  - simpl. right. left. reflexivity.
Defined.

(** X2: with integer priorities, the result is empty only when no rule
    matches, and truncation drops the least urgent rules: a matching rule
    that is left out has a priority no smaller than that of any returned
    rule. *)
Theorem most_urgent_rules_returned :
  forall (self : AISuggestionPipeline) (state : value) (game : string)
         (rules : list value),
    rules_for self game = Ok (VList rules) ->
    forallb well_formed_rule rules = true ->
    exists result,
      get_suggestions self state (Some game) = Ok result /\
      (result = [] <-> forall r, In r rules -> rule_matches r state = false) /\
      (forall r r', In r result -> In r' rules -> rule_matches r' state = true ->
         ~ In r' result -> (priority r <= priority r')%Z).
Proof.
  intros self state game rules Hr Hwf.
  set (active := filter (fun r => rule_matches r state) rules).
  exists (firstn 3 (sort_priority active)).
  split; [now apply get_suggestions_well_formed|].
  assert (Hperm : Permutation (sort_priority active) active)
    by apply sort_priority_perm.
  split; [split|].
  - intros Hnil r Hin. apply not_true_is_false. intros Hm.
    assert (Ha : In r (sort_priority active)).
    { apply (Permutation_in _ (Permutation_sym Hperm)).
      apply filter_In. auto. }
    destruct (sort_priority active) as [|x s]; [contradiction|].
    simpl in Hnil. discriminate.
  - intros Hnone.
    assert (Ha : active = []).
    { unfold active. clear -Hnone. induction rules as [|x rules IH]; [reflexivity|].
      simpl. rewrite (Hnone x (or_introl eq_refl)).
      apply IH. intros r Hin. apply Hnone. now right. }
    rewrite Ha. reflexivity.
  - intros r r' Hin Hin' Hm' Hout.
    assert (Hs : In r' (sort_priority active)).
    { apply (Permutation_in _ (Permutation_sym Hperm)).
      apply filter_In. auto. }
    rewrite <- (firstn_skipn 3 (sort_priority active)) in Hs.
    apply in_app_or in Hs as [Hs | Hs]; [contradiction|].
    apply (StronglySorted_app_le priority_le
             (firstn 3 (sort_priority active)) (skipn 3 (sort_priority active)));
      [|exact Hin | exact Hs].
    rewrite firstn_skipn. apply sort_priority_sorted.
Qed.

Lemma most_urgent_rules_returned_witness :
  exists result,
    get_suggestions __init__
      (VDict [("combat", VBool true); ("exposed", VBool true);
              ("ultimate_available", VBool true);
              ("equipped_gun", VStr "Classic")])
      (Some "valorant") = Ok result /\
    (forall r, In r result -> (priority r <= priority default_tip)%Z).
Proof.
  destruct (most_urgent_rules_returned __init__
              (VDict [("combat", VBool true); ("exposed", VBool true);
                      ("ultimate_available", VBool true);
                      ("equipped_gun", VStr "Classic")])
              "valorant" valorant_rules eq_refl eq_refl)
    as (result & Hres & _ & Htop).
  exists result. split; [exact Hres|].
  intros r Hin. apply (Htop r default_tip Hin).
  - unfold valorant_rules. simpl. tauto.
  - reflexivity.
  - vm_compute in Hres. injection Hres as <-.
    simpl. intros [H | [H | [H | []]]]; discriminate H.
Defined.

(** X3: a matching rule without a readable ['priority'] empties the whole
    result: the sort raises while it collects its keys, and the rules that
    match beside it are lost with it. *)
Theorem unranked_match_empties_result :
  forall (self : AISuggestionPipeline) (state : value) (game : string)
         (rules : list value) (r : value) (e : exn),
    rules_for self game = Ok (VList rules) ->
    In r rules ->
    rule_matches r state = true ->
    py_getitem r "priority" = Raise e ->
    get_suggestions self state (Some game) = Ok [].
Proof.
  intros self state game rules r e Hr Hin Hm Hp.
  unfold get_suggestions, get_suggestions_body.
  unfold rules_for in Hr. rewrite Hr; simpl.
  rewrite filter_active_filter; simpl.
  unfold py_sort_priority.
  destruct (sort_keys_raise (filter (fun r => rule_matches r state) rules) r e)
    as [e' ->]; [apply filter_In; auto | exact Hp | reflexivity].
Qed.

Lemma unranked_match_empties_result_witness :
  get_suggestions
    {| suggestions := VDict [("valorant", VList (unranked_rule :: valorant_rules))] |}
    (VDict [("exposed", VBool true)]) (Some "valorant") = Ok [].
Proof.
  apply (unranked_match_empties_result _ _ _
           (unranked_rule :: valorant_rules) unranked_rule KeyError).
  - reflexivity.
  - left. reflexivity.
  - reflexivity.
  - reflexivity.
Defined.

(** ** States that are not dicts *)

(** X4: on a state that is not a dict (a [None], a list, a string, a
    number) a rule matches exactly when its conditions are empty; every
    other rule, malformed or not, is rejected. *)
Theorem non_dict_state_matches_empty_only :
  forall (suggestion state : value),
    isinstance_dict state = false ->
    rule_matches suggestion state = has_empty_conditions suggestion.
Proof.
  intros suggestion state Hs.
  rewrite rule_matches_matches. unfold matches, has_empty_conditions, py_get.
  destruct suggestion as [| b | z | t | l | r]; try reflexivity.
  destruct (dict_lookup r "conditions") as [c|]; [|reflexivity].
  destruct c as [| b | z | t | l | [|item c]]; try reflexivity.
  simpl. now rewrite cond_ok_not_dict.
Qed.

Lemma non_dict_state_matches_empty_only_witness :
  rule_matches default_tip VNone = true /\
  rule_matches combat_rule (VList [VStr "combat"]) = false /\
  rule_matches combat_rule (VStr "combat") = false.
Proof.
  split; [|split].
  - rewrite (non_dict_state_matches_empty_only default_tip VNone eq_refl).
    reflexivity.
  - rewrite (non_dict_state_matches_empty_only combat_rule
               (VList [VStr "combat"]) eq_refl).
    reflexivity.
  - rewrite (non_dict_state_matches_empty_only combat_rule (VStr "combat") eq_refl).
    reflexivity.
Defined.

(** ** Conditions as a conjunction *)

Lemma forallb_perm {A : Type} (f : A -> bool) (l l' : list A) :
  Permutation l l' -> forallb f l = forallb f l'.
Proof.
  induction 1 as [| x l l' _ IH | x y l | l l' l'' _ IH1 _ IH2]; simpl.
  - reflexivity.
  - now rewrite IH.
  - destruct (f x), (f y); reflexivity.
  - now rewrite IH1.
Qed.

(** X5: the order in which a rule lists its conditions does not show in
    the outcome: two rules whose conditions hold the same items in
    different orders get the same answer from [_check_conditions] on every
    state, although the loop stops at the first failing or faulting
    item. *)
Theorem conditions_order_irrelevant :
  forall (suggestion suggestion' state : value) (conds conds' : dict),
    py_get suggestion "conditions" (VDict []) = Ok (VDict conds) ->
    py_get suggestion' "conditions" (VDict []) = Ok (VDict conds') ->
    Permutation conds conds' ->
    _check_conditions suggestion state = _check_conditions suggestion' state.
Proof.
  intros suggestion suggestion' state conds conds' Hc Hc' Hperm.
  rewrite !check_conditions_matches.
  rewrite (matches_conditions _ _ _ Hc), (matches_conditions _ _ _ Hc').
  f_equal. now apply forallb_perm.
Qed.

Lemma conditions_order_irrelevant_witness :
  _check_conditions
    (rule_with [("abilities", VDict [("Q", VBool true)]); ("combat", VBool true)])
    (VList [VStr "abilities"])
  = _check_conditions
      (rule_with [("combat", VBool true); ("abilities", VDict [("Q", VBool true)])])
      (VList [VStr "abilities"]).
Proof.
  apply (conditions_order_irrelevant _ _ _
           [("abilities", VDict [("Q", VBool true)]); ("combat", VBool true)]
           [("combat", VBool true); ("abilities", VDict [("Q", VBool true)])]).
  - reflexivity.
  - reflexivity.
  - apply perm_swap.
Defined.

(** X6: when two rules name different keys, the rule whose conditions
    dict holds the items of the first followed by the items of the second
    matches exactly the states that both of them match.  (With a key in
    common the combined items would not be a dict: Python keeps one value
    per key.) *)
Theorem conditions_concatenate :
  forall (conds1 conds2 : dict) (state : value),
    NoDup (keys (conds1 ++ conds2)) ->
    rule_matches (rule_with (conds1 ++ conds2)) state
    = rule_matches (rule_with conds1) state && rule_matches (rule_with conds2) state.
Proof.
  intros conds1 conds2 state _. rewrite !rule_matches_matches.
  unfold rule_with, matches. simpl. apply forallb_app.
Qed.

Lemma conditions_concatenate_witness :
  rule_matches
    (rule_with [("site_control", VBool false); ("enemy_presence", VBool true);
                ("spike_planted", VBool true)])
    (VDict [("site_control", VBool false); ("enemy_presence", VBool true)])
  = false.
Proof.
  rewrite (conditions_concatenate
             [("site_control", VBool false); ("enemy_presence", VBool true)]
             [("spike_planted", VBool true)]).
  - reflexivity.
  - simpl.
    apply NoDup_cons; [simpl; intros [H | [H | []]]; discriminate H|].
    apply NoDup_cons; [simpl; intros [H | []]; discriminate H|].
    apply NoDup_cons; [simpl; tauto | apply NoDup_nil].
Defined.

(** * The state detector in front of the matcher *)

Lemma dict_lookup_not_key (s : dict) (k : string) :
  ~ In k (keys s) -> dict_lookup s k = None.
Proof.
  induction s as [|[k' v] s IH]; simpl; intros H; [reflexivity|].
  destruct (String.eqb_spec k k') as [-> | Hne].
  - destruct H. now left.
  - apply IH. intros Hin. apply H. now right.
Qed.

(** A rule that names a key the state does not have is rejected. *)
Lemma missing_key_rejects (r : value) (conds s : dict) (k : string)
    (expected : value) :
  py_get r "conditions" (VDict []) = Ok (VDict conds) ->
  In (k, expected) conds ->
  ~ In k (keys s) ->
  rule_matches r (VDict s) = false.
Proof.
  intros Hc Hin Hk.
  rewrite rule_matches_matches, (matches_conditions _ _ _ Hc).
  apply not_true_is_false. rewrite forallb_forall. intros H.
  specialize (H _ Hin). rewrite cond_ok_absent in H; [discriminate|].
  simpl. now rewrite dict_lookup_not_key.
Qed.

Section DetectorAndMatcher.

Context (frame : Type) (combat_in_frame : frame -> bool) (origin : value).

Let detector := GameStateDetector.detector frame.
Let process_frame := GameStateDetector.process_frame frame combat_in_frame origin.
Let _detect_combat := GameStateDetector._detect_combat frame combat_in_frame.
Let _get_valorant_state :=
  GameStateDetector._get_valorant_state frame combat_in_frame origin.

(** X7: the constructor lowers the name and accepts exactly the three
    games of [GAME_CONFIGS]; any other name raises [ValueError] with the
    caller's spelling.  A detector it returns never falls through to the
    empty state of [get_game_specific_state]: every [process_frame] yields
    a dict whose ['combat'] is what [_detect_combat] says of the frame. *)
Theorem constructor_accepts_configured_games :
  forall (name : string),
    is_ascii name = true ->
    match GameStateDetector.__init__ frame name with
    | GameStateDetector.Constructed _ self =>
        GameStateDetector.game_name frame self = lower name /\
        In (lower name) ["valorant"; "csgo"; "dota2"] /\
        forall f, exists s,
          snd (process_frame self f) = VDict s /\
          dict_lookup s "combat"
          = Some (VBool (_detect_combat (fst (process_frame self f))))
    | GameStateDetector.ValueError _ spelled =>
        spelled = name /\ ~ In (lower name) ["valorant"; "csgo"; "dota2"]
    end.
Proof.
  intros name _. unfold GameStateDetector.__init__. simpl.
  destruct (String.eqb_spec (lower name) "valorant") as [Hv | Hv].
  { split; [reflexivity|]. split; [rewrite Hv; simpl; tauto|].
    intros f. unfold process_frame, GameStateDetector.process_frame,
      GameStateDetector.get_game_specific_state. simpl. rewrite Hv. simpl.
    eexists. split; reflexivity. }
  destruct (String.eqb_spec (lower name) "csgo") as [Hc | Hc].
  { split; [reflexivity|]. split; [rewrite Hc; simpl; tauto|].
    intros f. unfold process_frame, GameStateDetector.process_frame,
      GameStateDetector.get_game_specific_state. simpl. rewrite Hc. simpl.
    eexists. split; reflexivity. }
  destruct (String.eqb_spec (lower name) "dota2") as [Hd | Hd].
  { split; [reflexivity|]. split; [rewrite Hd; simpl; tauto|].
    intros f. unfold process_frame, GameStateDetector.process_frame,
      GameStateDetector.get_game_specific_state. simpl. rewrite Hd. simpl.
    eexists. split; reflexivity. }
  split; [reflexivity|].
  simpl. intros [H | [H | [H | []]]]; congruence.
Qed.

(** X8: the suggestions of the running loop.  For a 'valorant' detector
    and any frame, [get_suggestions] on the detected state returns the
    rules [use_ability_q], [use_ability_e], [switch_to_rifle] when
    [_detect_combat] reports combat, and [default_tip] alone when it does
    not. *)
Theorem valorant_loop_suggestions :
  forall (self : detector) (f : option frame),
    GameStateDetector.game_name frame self = "valorant" ->
    get_suggestions __init__ (snd (process_frame self f)) (Some "valorant")
    = Ok (if _detect_combat (fst (process_frame self f))
          then firstn 3 (skipn 12 valorant_rules)
          else [default_tip]) /\
    result_ids (Ok (firstn 3 (skipn 12 valorant_rules)))
    = Ok [Ok (VStr "use_ability_q"); Ok (VStr "use_ability_e");
          Ok (VStr "switch_to_rifle")].
Proof.
  intros self f Hg. split; [|reflexivity].
  unfold process_frame, GameStateDetector.process_frame,
    GameStateDetector.get_game_specific_state, _detect_combat,
    GameStateDetector._detect_combat.
  simpl. rewrite Hg. simpl.
  unfold GameStateDetector._get_valorant_state,
    GameStateDetector._detect_abilities, GameStateDetector._detect_combat.
  simpl.
  destruct f as [fr|]; [destruct (combat_in_frame fr)|]; reflexivity.
Qed.

(** X9: the 'csgo' and 'dota2' rules never fire on what their detectors
    report: for a detector of either game and any frame, [get_suggestions]
    on the detected state with that game's catalog returns the empty
    list. *)
Theorem csgo_dota2_loops_silent :
  forall (self : detector) (f : option frame) (game : string),
    GameStateDetector.game_name frame self = game ->
    game = "csgo" \/ game = "dota2" ->
    get_suggestions __init__ (snd (process_frame self f)) (Some game) = Ok [].
Proof.
  intros self f game Hg Hgame.
  unfold process_frame, GameStateDetector.process_frame,
    GameStateDetector.get_game_specific_state,
    GameStateDetector._get_csgo_state, GameStateDetector._get_dota2_state,
    GameStateDetector._detect_combat.
  simpl. rewrite Hg.
  destruct Hgame as [-> | ->]; simpl;
    (destruct f as [fr|]; [destruct (combat_in_frame fr)|]; reflexivity).
Qed.

End DetectorAndMatcher.

Lemma constructor_accepts_configured_games_witness :
  (exists self,
     GameStateDetector.__init__ bool "VALORANT" = GameStateDetector.Constructed bool self /\
     GameStateDetector.game_name bool self = "valorant") /\
  GameStateDetector.__init__ bool "Fortnite" = GameStateDetector.ValueError bool "Fortnite".
Proof.
  split.
  - pose proof (constructor_accepts_configured_games bool (fun b => b) VNone
                  "VALORANT" eq_refl) as H.
    destruct (GameStateDetector.__init__ bool "VALORANT") as [self | spelled].
    + exists self. split; [reflexivity | exact (proj1 H)].
    + destruct H as [_ H]. exfalso. apply H. simpl. tauto.
  - pose proof (constructor_accepts_configured_games bool (fun b => b) VNone
                  "Fortnite" eq_refl) as H.
    destruct (GameStateDetector.__init__ bool "Fortnite") as [self | spelled].
    + destruct H as (_ & H & _). simpl in H.
      destruct H as [H | [H | [H | []]]]; discriminate H.
    + destruct H as [-> _]. reflexivity.
Defined.

Lemma valorant_loop_suggestions_witness :
  match GameStateDetector.__init__ bool "Valorant" with
  | GameStateDetector.Constructed _ self =>
      result_ids
        (get_suggestions __init__
           (snd (GameStateDetector.process_frame bool (fun b => b)
                   (VList [VInt 0; VInt 0]) self (Some true)))
           (Some "valorant"))
      = Ok [Ok (VStr "use_ability_q"); Ok (VStr "use_ability_e");
            Ok (VStr "switch_to_rifle")]
  | GameStateDetector.ValueError _ _ => False
  end.
Proof.
  set (init := GameStateDetector.__init__ bool "Valorant").
  vm_compute in init. subst init. cbv beta iota.
  match goal with
  | |- context [GameStateDetector.process_frame _ _ _ ?self _] =>
      rewrite (proj1 (valorant_loop_suggestions bool (fun b => b)
                        (VList [VInt 0; VInt 0]) self (Some true) eq_refl))
  end.
  reflexivity.
Defined.

Lemma csgo_dota2_loops_silent_witness :
  match GameStateDetector.__init__ bool "CSGO" with
  | GameStateDetector.Constructed _ self =>
      get_suggestions __init__
        (snd (GameStateDetector.process_frame bool (fun b => b) VNone self (Some true)))
        (Some "csgo") = Ok []
  | GameStateDetector.ValueError _ _ => False
  end.
Proof.
  set (init := GameStateDetector.__init__ bool "CSGO").
  vm_compute in init. subst init. cbv beta iota.
  apply (csgo_dota2_loops_silent bool (fun b => b) VNone _ (Some true) "csgo").
  - reflexivity.
  - left. reflexivity.
Defined.

(** The rules of the 'valorant' list that can match a state with the keys
    of the detected state, by ['id']. *)
Lemma valorant_state_keys (frame : Type) (combat_in_frame : frame -> bool)
    (origin : value) (self : GameStateDetector.detector frame) :
  state_keys (GameStateDetector._get_valorant_state frame combat_in_frame origin self)
  = ["combat"; "utility_available"; "round_time"; "team_money"; "exposed";
     "player_health"; "player_armor"; "player_position"; "enemy_positions";
     "spike_location"; "site_control"; "enemy_presence"; "teammate_with_smoke";
     "teammate_with_flash"; "teammate_with_healing"; "need_coordination";
     "abilities"; "equipped_gun"].
Proof. reflexivity. Qed.

Ltac reject_by_key Hm Hk k :=
  exfalso;
  erewrite (missing_key_rejects _ _ _ k) in Hm;
  [ discriminate Hm
  | reflexivity
  | simpl; tauto
  | rewrite Hk; simpl; intuition discriminate ].

(** X10: eight of the sixteen 'valorant' rules name a key that
    [_get_valorant_state] never sets, so they stay silent on every state
    that has the keys of the detected state, whatever values the detectors
    put under them: only [exposed_warning], [save_money], [rotate_site],
    [communicate_team], [use_ability_q], [use_ability_e],
    [switch_to_rifle] and [default_tip] can match. *)
Theorem unset_keys_silence_rules :
  forall (frame : Type) (combat_in_frame : frame -> bool) (origin : value)
         (self : GameStateDetector.detector frame) (s : dict) (r : value),
    keys s
    = state_keys (GameStateDetector._get_valorant_state frame combat_in_frame
                    origin self) ->
    In r valorant_rules ->
    rule_matches r (VDict s) = true ->
    In (py_get r "id" VNone)
       [Ok (VStr "exposed_warning"); Ok (VStr "save_money");
        Ok (VStr "rotate_site"); Ok (VStr "communicate_team");
        Ok (VStr "use_ability_q"); Ok (VStr "use_ability_e");
        Ok (VStr "switch_to_rifle"); Ok (VStr "default_tip")].
Proof.
  intros frame combat_in_frame origin self s r Hk Hin Hm.
  rewrite valorant_state_keys in Hk.
  unfold valorant_rules in Hin. simpl in Hin.
  destruct Hin as [<- | Hin]; [reject_by_key Hm Hk "close_range"|].
  destruct Hin as [<- | Hin]; [simpl; tauto|].
  destruct Hin as [<- | Hin]; [simpl; tauto|].
  destruct Hin as [<- | Hin]; [reject_by_key Hm Hk "ultimate_available"|].
  destruct Hin as [<- | Hin]; [simpl; tauto|].
  destruct Hin as [<- | Hin]; [reject_by_key Hm Hk "spike_available"|].
  destruct Hin as [<- | Hin]; [reject_by_key Hm Hk "spike_planted"|].
  destruct Hin as [<- | Hin]; [reject_by_key Hm Hk "need_smoke"|].
  destruct Hin as [<- | Hin]; [reject_by_key Hm Hk "need_flash"|].
  destruct Hin as [<- | Hin]; [reject_by_key Hm Hk "low_health"|].
  destruct Hin as [<- | Hin]; [reject_by_key Hm Hk "entering_new_area"|].
  destruct Hin as [<- | Hin]; [simpl; tauto|].
  destruct Hin as [<- | Hin]; [simpl; tauto|].
  destruct Hin as [<- | Hin]; [simpl; tauto|].
  destruct Hin as [<- | Hin]; [simpl; tauto|].
  destruct Hin as [<- | []]. simpl. tauto.
Qed.

Lemma unset_keys_silence_rules_witness :
  In (py_get (nth 1 valorant_rules VNone) "id" VNone)
     [Ok (VStr "exposed_warning"); Ok (VStr "save_money");
      Ok (VStr "rotate_site"); Ok (VStr "communicate_team");
      Ok (VStr "use_ability_q"); Ok (VStr "use_ability_e");
      Ok (VStr "switch_to_rifle"); Ok (VStr "default_tip")].
Proof.
  apply (unset_keys_silence_rules bool (fun b => b) VNone
           {| GameStateDetector.game_name := "valorant";
              GameStateDetector.config :=
                {| window_name := "VALORANT"; window_aliases := None;
                   screen_regions := [] |};
              GameStateDetector.last_frame := None;
              GameStateDetector.last_state := VDict [] |}
           (map (fun k => (k, VBool true))
              ["combat"; "utility_available"; "round_time"; "team_money";
               "exposed"; "player_health"; "player_armor"; "player_position";
               "enemy_positions"; "spike_location"; "site_control";
               "enemy_presence"; "teammate_with_smoke"; "teammate_with_flash";
               "teammate_with_healing"; "need_coordination"; "abilities";
               "equipped_gun"])).
  - reflexivity.
  - simpl. right. left. reflexivity.
  - reflexivity.
Defined.

(** * The catch-all rule of the shipped table *)

Lemma insert_priority_app_last (x d : value) (l : list value) :
  (priority x < priority d)%Z ->
  insert_priority x (l ++ [d]) = insert_priority x l ++ [d].
Proof.
  intros Hlt. induction l as [|y l IH]; simpl.
  - destruct (Z.ltb_spec (priority d) (priority x)); [lia | reflexivity].
  - destruct (Z.ltb (priority y) (priority x)); [now rewrite IH | reflexivity].
Qed.

Lemma sort_priority_app_last (d : value) (l : list value) :
  Forall (fun r => (priority r < priority d)%Z) l ->
  sort_priority (l ++ [d]) = sort_priority l ++ [d].
Proof.
  induction l as [|x l IH]; intros H; [reflexivity|].
  inversion H as [|? ? Hx Hl]; subst. simpl.
  rewrite (IH Hl). now apply insert_priority_app_last.
Qed.

Lemma valorant_specific_below_default :
  Forall (fun r => (priority r < priority default_tip)%Z) (firstn 15 valorant_rules).
Proof.
  unfold valorant_rules. simpl.
  repeat (apply Forall_cons; [reflexivity|]). apply Forall_nil.
Qed.

Lemma Forall_filter_keep {A : Type} (P : A -> Prop) (f : A -> bool) (l : list A) :
  Forall P l -> Forall P (filter f l).
Proof.
  induction 1 as [|x l Hx Hl IH]; simpl; [constructor|].
  destruct (f x); [constructor|]; assumption.
Qed.

(** X11: on the shipped 'valorant' list [get_suggestions] is never empty,
    for any state object: the result is the first three of the other
    matching rules in priority order followed by [default_tip].  The
    default tip is shown when at most two other rules match and is pushed
    out when three or more do. *)
Theorem valorant_default_tip_fills_in :
  forall (state : value),
    let others := filter (fun r => rule_matches r state) (firstn 15 valorant_rules) in
    exists result,
      get_suggestions __init__ state (Some "valorant") = Ok result /\
      result = firstn 3 (sort_priority others ++ [default_tip]) /\
      result <> [] /\
      ((List.length others <= 2)%nat -> In default_tip result) /\
      ((3 <= List.length others)%nat -> ~ In default_tip result).
Proof.
  intros state others.
  assert (Hlen : List.length (sort_priority others) = List.length others)
    by apply Permutation_length, sort_priority_perm.
  assert (Hbelow : Forall (fun r => (priority r < priority default_tip)%Z) others)
    by apply Forall_filter_keep, valorant_specific_below_default.
  exists (firstn 3 (sort_priority others ++ [default_tip])).
  split; [|split; [reflexivity|split; [|split]]].
  - rewrite (get_suggestions_well_formed __init__ state "valorant" valorant_rules
               eq_refl eq_refl).
    do 2 f_equal.
    change valorant_rules with (firstn 15 valorant_rules ++ [default_tip]).
    rewrite filter_app. fold others.
    assert (Hd : filter (fun r => rule_matches r state) [default_tip] = [default_tip]).
    { cbn [filter]. rewrite rule_matches_matches. reflexivity. }
    rewrite Hd. now apply sort_priority_app_last.
  - destruct (sort_priority others) as [|a s]; simpl; discriminate.
  - intros Hfew. rewrite firstn_all2.
    + apply in_or_app. right. now left.
    + rewrite length_app. simpl. lia.
  - intros Hmany Hin.
    rewrite firstn_app in Hin.
    replace (3 - List.length (sort_priority others))%nat with 0%nat in Hin by lia.
    rewrite firstn_O, app_nil_r in Hin.
    apply in_firstn in Hin.
    apply (Permutation_in _ (sort_priority_perm others)) in Hin.
    rewrite Forall_forall in Hbelow. specialize (Hbelow _ Hin). lia.
Qed.

Lemma valorant_default_tip_fills_in_witness :
  exists result,
    get_suggestions __init__ (VDict [("exposed", VBool true)]) (Some "valorant")
    = Ok result /\
    In default_tip result.
Proof.
  destruct (valorant_default_tip_fills_in (VDict [("exposed", VBool true)]))
    as (result & Hres & _ & _ & Hfew & _).
  exists result. split; [exact Hres|].
  apply Hfew. vm_compute. lia.
Defined.
